(** * Kraken HTR front end: the OCR invocation pipeline

    A shallow embedding of the Streamlit scripts of the repository,
    [app_streamlit.py] and the script that [app.py] holds the text of, and
    the properties of their image acquisition, threshold preprocessor and
    CLI / Python-API dispatch.

    Conventions.
    - A Python [str] is represented by its UTF-8 encoding, held in a Rocq
      [string]; the raw bytes of a file are a Rocq [string] as well.
    - Python [int]s are [Z].
    - Image objects live in an object store and are passed by reference.
    - The file system is a finite map from path names to nodes.
    - Everything the scripts do to the outside (widgets drawn, processes
      started, library calls) is recorded in the world, in order.
    - What is raised outside [Exception] comes from the calls of the
      environment: an interrupt between two statements of a script is
      not part of the model. *)

From Stdlib Require Import ZArith Ascii String List Bool Lia.
From stdpp Require Import base option list strings gmap pretty.

Local Open Scope string_scope.
Local Open Scope Z_scope.

(** ** Python exceptions *)

(** The instances of [Exception], by the classes the scripts tell apart
    in their [except] clauses. [OtherError] stands for every other
    subclass of [Exception] ([ImportError], [UnicodeDecodeError],
    [PermissionError], ...). What is raised outside [Exception] is not an
    [exn]: see [Abort] below. *)
Inductive exn : Type :=
  | FileNotFoundError (msg : string)
  | CalledProcessError (returncode : Z) (cmd : list string)
                       (msg : string) (stdout stderr : string)
  | OtherError (cls : string) (msg : string).

(** [str(e)]. *)
Definition exn_str (e : exn) : string :=
  match e with
  | FileNotFoundError msg => msg
  | CalledProcessError _ _ msg _ _ => msg
  | OtherError _ msg => msg
  end.

(** How a call ends: with a value, with an instance of [Exception], or
    with a [BaseException] that is no [Exception] ([KeyboardInterrupt],
    [SystemExit], [GeneratorExit]), which no [except Exception] clause and
    no clause for a subclass of [Exception] catches. *)
Inductive result (A : Type) : Type :=
  | Ok (a : A)
  | Raise (e : exn)
  | Abort (cls msg : string).
Arguments Ok {A} a.
Arguments Raise {A} e.
Arguments Abort {A} cls msg.

(** ** Images (PIL) *)

Inductive mode : Type := ModeL | ModeRGB.

(** An 8-bit bitmap: one band ("L") or three ("RGB"). *)
Inductive Image : Type :=
  | ImL (width height : nat) (data : list Z)
  | ImRGB (width height : nat) (data : list (Z * Z * Z)).

Definition im_mode (im : Image) : mode :=
  match im with ImL _ _ _ => ModeL | ImRGB _ _ _ => ModeRGB end.

Definition is_u8 (v : Z) : bool := (0 <=? v) && (v <=? 255).

(** Every band value of the bitmap is an unsigned byte. *)
Definition wf_image (im : Image) : bool :=
  match im with
  | ImL _ _ d => forallb is_u8 d
  | ImRGB _ _ d =>
      forallb (fun '(r, g, b) => is_u8 r && is_u8 g && is_u8 b) d
  end.

(** ITU-R 601-2 luma transform, in the fixed-point form PIL's converter
    uses for "RGB" to "L". *)
Definition luma (p : Z * Z * Z) : Z :=
  let '(r, g, b) := p in
  Z.shiftr (r * 19595 + g * 38470 + b * 7471 + 32768) 16.

(** The pixels of [im.convert(m)] for an image already in memory. *)
Definition convert_data (m : mode) (im : Image) : Image :=
  match m, im with
  | ModeL, ImL w h d => ImL w h d
  | ModeL, ImRGB w h d => ImL w h (map luma d)
  | ModeRGB, ImL w h d => ImRGB w h (map (fun v => (v, v, v)) d)
  | ModeRGB, ImRGB w h d => ImRGB w h d
  end.

(** [Image.point(f)]: the function is called once for each possible pixel
    value and the resulting table is applied to all bands. *)
Definition point_table (f : Z -> Z) : list Z := map f (seqZ 0 256).

Definition table_apply (lut : list Z) (p : Z) : Z :=
  default 0 (lut !! Z.to_nat p).

Definition point_data (f : Z -> Z) (im : Image) : Image :=
  let lut := point_table f in
  match im with
  | ImL w h d => ImL w h (map (table_apply lut) d)
  | ImRGB w h d =>
      ImRGB w h (map (fun '(r, g, b) =>
                        (table_apply lut r, table_apply lut g, table_apply lut b)) d)
  end.

(** ** Text and files *)

Definition LF : ascii := ascii_of_nat 10.
Definition CR : ascii := ascii_of_nat 13.
Definition nl : string := String LF EmptyString.

Definition byte_in (lo hi : N) (c : ascii) : bool :=
  let b := N_of_ascii c in ((lo <=? b) && (b <=? hi))%N.

(** Continuation byte 80..BF. *)
Definition is_cont (c : ascii) : bool := byte_in 128 191 c.

(** The [utf8] codec in strict mode accepts exactly the well-formed byte
    sequences: no overlong forms, no surrogates, nothing above U+10FFFF. *)
Fixpoint utf8_valid (s : string) : bool :=
  match s with
  | EmptyString => true
  | String c0 r0 =>
      if byte_in 0 127 c0 then utf8_valid r0
      else if byte_in 194 223 c0 then
        match r0 with
        | String c1 r1 => is_cont c1 && utf8_valid r1
        | _ => false
        end
      else if byte_in 224 239 c0 then
        match r0 with
        | String c1 (String c2 r2) =>
            (if byte_in 224 224 c0 then byte_in 160 191 c1
             else if byte_in 237 237 c0 then byte_in 128 159 c1
             else is_cont c1)
            && is_cont c2 && utf8_valid r2
        | _ => false
        end
      else if byte_in 240 244 c0 then
        match r0 with
        | String c1 (String c2 (String c3 r3)) =>
            (if byte_in 240 240 c0 then byte_in 144 191 c1
             else if byte_in 244 244 c0 then byte_in 128 143 c1
             else is_cont c1)
            && is_cont c2 && is_cont c3 && utf8_valid r3
        | _ => false
        end
      else false
  end.

(** Universal newlines, the default of [open(path, "r")]: on input the
    line endings CR LF and CR are translated to LF. *)
Fixpoint translate_newlines (s : string) : string :=
  match s with
  | EmptyString => EmptyString
  | String c r =>
      if Ascii.eqb c CR then
        String LF
          match r with
          | String c' r' =>
              if Ascii.eqb c' LF then translate_newlines r'
              else translate_newlines r
          | EmptyString => EmptyString
          end
      else String c (translate_newlines r)
  end.

Definition starts_with_sep (s : string) : bool :=
  match s with String c _ => Ascii.eqb c "/"%char | _ => false end.

Fixpoint ends_with_sep (s : string) : bool :=
  match s with
  | EmptyString => false
  | String c EmptyString => Ascii.eqb c "/"%char
  | String _ r => ends_with_sep r
  end.

(** [os.path.join(a, b)] (POSIX). *)
Definition path_join (a b : string) : string :=
  if starts_with_sep b then b
  else if orb (String.eqb a EmptyString) (ends_with_sep a) then a ++ b
  else a ++ "/" ++ b.

(** ["\n".join(parts)] *)
Fixpoint join_lines (parts : list string) : string :=
  match parts with
  | [] => EmptyString
  | [p] => p
  | p :: rest => p ++ nl ++ join_lines rest
  end.

Inductive node : Type :=
  | Dir
  | File (raw : string).

(** ** The kraken Python package, as seen by the scripts *)

(** A Python object returned by the recognizer, known by its [str()]. *)
Record PyObj : Type := { py_str : string }.

(** A loaded model handle. *)
Record Model : Type := { model_source : string }.

(** The value bound to [preds]. [isinstance(preds, list)] holds for
    [PredList] only. [PredSeq] is a sequence that is no list (a tuple,
    say): it has items, and a [str()] of its own. [PredObj] is any other
    object. *)
Inductive Preds : Type :=
  | PredList (items : list PyObj)
  | PredSeq (items : list PyObj) (shown : string)
  | PredObj (o : PyObj).

(** ** What the user sees and what the scripts call *)

Inductive element : Type :=
  | el_page_config (title : string)
  | el_title (s : string)
  | el_write (args : list string)
  | el_text (s : string)
  | el_header (s : string)
  | el_subheader (s : string)
  | el_markdown (s : string)
  | el_code (s : string)
  | el_text_input (label : string)
  | el_slider (label : string)
  | el_file_uploader (label : string)
  | el_button (label : string)
  | el_image (im : Image) (caption : option string)
  | el_success (s : string)
  | el_info (s : string)
  | el_warning (s : string)
  | el_error (s : string)
  | el_text_area (label value : string)
  | el_download_button (label data file_name mime : string)
  | el_sidebar (e : element)
  | el_exception (e : exn).

Inductive call : Type :=
  | call_open_convert (upload : string) (m : mode)
  | call_open (upload : string)
  | call_mkdtemp (dir : string)
  | call_save (path : string)
  | call_subprocess (cmd : list string)
  | call_exists (path : string)
  | call_read (path : string)
  | call_import_kraken
  | call_load_any_model (path : string)
  | call_recognize (m : Model) (images : list Image)
  | call_rpred (m : Model) (images : list Image).

Record World : Type := mkWorld {
  w_imgs : list Image;          (* object store, indexed by reference *)
  w_fs : gmap string node;
  w_page : list element;
  w_calls : list call
}.

(** ** The environment

    The answers of everything the scripts do not implement themselves:
    the operating system, the image codecs, the kraken executable and the
    kraken package. The scripts are total functions of these answers.

    One thing is taken for granted of the kraken package: its calls
    leave the image objects they are handed as they are. What they do to
    the file system is an answer of the environment ([env_lib_fs]). *)

(** How starting the child process ended. [Exited] carries the exit
    status and the bytes captured from the two pipes. *)
Inductive spawn : Type :=
  | SpawnNotFound (msg : string)              (* executable not on PATH *)
  | SpawnFailed (cls msg : string)            (* any other OSError *)
  | Exited (returncode : Z) (stdout stderr : string)
  | Interrupted (cls msg : string).           (* KeyboardInterrupt while waiting *)

Record Env : Type := mkEnv {
  (* tempfile.mkdtemp(): the name chosen, given the current file system,
     and the exception raised instead of creating the directory, if any *)
  env_mkdtemp : gmap string node -> string;
  env_mkdtemp_error : gmap string node -> option exn;
  (* image.save(path): the bytes written, and the exception raised
     instead of leaving the file, if any *)
  env_png : Image -> string;
  env_save_error : Image -> string -> gmap string node -> option exn;
  (* running a command line: how it ended and the file system it left *)
  env_run : list string -> gmap string node -> spawn * gmap string node;
  (* text=True: the captured bytes decoded in the encoding of the locale,
     with universal newlines; None when they do not decode *)
  env_decode : string -> option string;
  (* str() of the UnicodeDecodeError for captured bytes that do not
     decode, and for the bytes of a file that are not UTF-8 *)
  env_decode_error : string -> string;
  env_utf8_error : string -> string;
  (* str() of the CalledProcessError for a command and exit status *)
  env_cpe_str : list string -> Z -> string;
  (* str() of the OSError of class cls that open(path) raises *)
  env_oserror_str : string -> string -> string;
  (* what a call into the kraken package does to the file system *)
  env_lib_fs : call -> gmap string node -> gmap string node;
  (* from kraken import rpred, serialization *)
  env_import : result unit;
  env_load_any_model : string -> result Model;
  env_recognize : Model -> list Image -> result Preds;
  env_rpred : Model -> list Image -> result Preds;
  (* Image.open(upload).convert(mode) and Image.open(upload) *)
  env_open_convert : string -> mode -> result Image;
  env_open : string -> result Image
}.

(** ** The script monad: world passing with exceptions *)

Definition M (A : Type) : Type := World -> result A * World.

#[global] Instance M_ret : MRet M := fun A a w => (Ok a, w).
#[global] Instance M_bind : MBind M := fun A B f m w =>
  match m w with
  | (Ok a, w') => f a w'
  | (Raise e, w') => (Raise e, w')
  | (Abort cls msg, w') => (Abort cls msg, w')
  end.

Definition raise {A} (e : exn) : M A := fun w => (Raise e, w).

Definition abort {A} (cls msg : string) : M A := fun w => (Abort cls msg, w).

Definition lift {A} (r : result A) : M A := fun w => (r, w).

(** [try: body  except ...: handler e], every clause naming [Exception]
    or a subclass of it. The handler decides by the class of [e]; an
    exception raised inside a handler is not caught by the clauses of the
    same statement, and what is no [Exception] passes through. *)
Definition try_except {A} (body : M A) (handler : exn -> M A) : M A :=
  fun w =>
    match body w with
    | (Ok a, w') => (Ok a, w')
    | (Raise e, w') => handler e w'
    | (Abort cls msg, w') => (Abort cls msg, w')
    end.

Definition emit (e : element) : M unit := fun w =>
  (Ok tt, mkWorld (w_imgs w) (w_fs w) (w_page w ++ [e]) (w_calls w)).

Definition record (c : call) : M unit := fun w =>
  (Ok tt, mkWorld (w_imgs w) (w_fs w) (w_page w) (w_calls w ++ [c])).

Definition get_fs : M (gmap string node) := fun w => (Ok (w_fs w), w).

Definition put_fs (fs : gmap string node) : M unit := fun w =>
  (Ok tt, mkWorld (w_imgs w) fs (w_page w) (w_calls w)).

(** *** Image objects *)

(** A new object; its reference is the next free index of the store. *)
Definition img_new (im : Image) : M nat := fun w =>
  (Ok (length (w_imgs w)),
   mkWorld (w_imgs w ++ [im]) (w_fs w) (w_page w) (w_calls w)).

Definition img_get (ref : nat) : M Image := fun w =>
  match w_imgs w !! ref with
  | Some im => (Ok im, w)
  | None => (Raise (OtherError "ReferenceError" "no such object"), w)
  end.

(** [image.convert(m)]: always a new image, a copy when the mode is kept. *)
Definition pil_convert (image : nat) (m : mode) : M nat :=
  im ← img_get image; img_new (convert_data m im).

(** [image.point(f)]: a new image. *)
Definition pil_point (image : nat) (f : Z -> Z) : M nat :=
  im ← img_get image; img_new (point_data f im).

(** From [app.py], lines 113-118. *)
Definition apply_threshold (image : nat) (thresh : Z) : M nat :=
  gray ← pil_convert image ModeL;
  (* pixels > thresh -> 255 (white), else 0 (black) *)
  bw ← pil_point gray (fun p => if p >? thresh then 255 else 0);
  mret bw.

(** ** Library calls used by the scripts *)

Section Calls.
Context (E : Env).

(** [Image.open(upload).convert(m)]: decode the uploaded bytes. *)
Definition open_convert (upload : string) (m : mode) : M nat :=
  record (call_open_convert upload m);;
  im ← lift (env_open_convert E upload m);
  img_new im.

(** [Image.open(upload)]. *)
Definition image_open (upload : string) : M nat :=
  record (call_open upload);;
  im ← lift (env_open E upload);
  img_new im.

(** [tempfile.mkdtemp()]: creates the directory and returns its name, or
    raises and creates nothing. *)
Definition mkdtemp : M string :=
  fs ← get_fs;
  let dir := env_mkdtemp E fs in
  record (call_mkdtemp dir);;
  match env_mkdtemp_error E fs with
  | Some e => raise e
  | None => put_fs (<[dir := Dir]> fs);; mret dir
  end.

(** [image.save(path)]: writes the file, or raises and leaves none. *)
Definition pil_save (image : nat) (path : string) : M unit :=
  im ← img_get image;
  record (call_save path);;
  fs ← get_fs;
  match env_save_error E im path fs with
  | Some e => raise e
  | None => put_fs (<[path := File (env_png E im)]> fs)
  end.

(** The [CompletedProcess] bound to [proc]. *)
Record Completed : Type := mkCompleted {
  proc_returncode : Z;
  proc_stdout : string;
  proc_stderr : string
}.

(** What [text=True] makes of the bytes captured from a pipe. *)
Definition decode_captured (raw : string) : M string :=
  match env_decode E raw with
  | Some text => mret text
  | None => raise (OtherError "UnicodeDecodeError" (env_decode_error E raw))
  end.

(** [subprocess.run(cmd, capture_output=True, text=True, check=True)]:
    the process is started and waited for, what it wrote to its pipes is
    decoded, stdout first, and only then [check=True] looks at the exit
    status. *)
Definition subprocess_run (cmd : list string) : M Completed :=
  record (call_subprocess cmd);;
  fs ← get_fs;
  let '(ended, fs') := env_run E cmd fs in
  put_fs fs';;
  match ended with
  | SpawnNotFound msg => raise (FileNotFoundError msg)
  | SpawnFailed cls msg => raise (OtherError cls msg)
  | Exited code out err =>
      stdout ← decode_captured out;
      stderr ← decode_captured err;
      if code =? 0 then mret (mkCompleted code stdout stderr)
      else raise (CalledProcessError code cmd (env_cpe_str E cmd code)
                    stdout stderr)
  | Interrupted cls msg => abort cls msg
  end.

(** [os.path.exists(path)]. *)
Definition os_path_exists (path : string) : M bool :=
  record (call_exists path);;
  fs ← get_fs;
  mret (match fs !! path with Some _ => true | None => false end).

(** What [fh.read()] yields for a file opened with
    [open(path, "r", encoding="utf8")] whose bytes are [raw]. *)
Definition read_text (raw : string) : result string :=
  if utf8_valid raw then Ok (translate_newlines raw)
  else Raise (OtherError "UnicodeDecodeError" (env_utf8_error E raw)).

(** [with open(path, "r", encoding="utf8") as fh: fh.read()]. *)
Definition open_read (path : string) : M string :=
  record (call_read path);;
  fs ← get_fs;
  match fs !! path with
  | Some (File raw) => lift (read_text raw)
  | Some Dir =>
      raise (OtherError "IsADirectoryError"
               (env_oserror_str E "IsADirectoryError" path))
  | None =>
      raise (FileNotFoundError (env_oserror_str E "FileNotFoundError" path))
  end.

(** A call into the kraken package: it may write to the file system
    before it answers. *)
Definition lib_call {A} (c : call) (answer : result A) : M A :=
  record c;;
  fs ← get_fs;
  put_fs (env_lib_fs E c fs);;
  lift answer.

Definition import_kraken : M unit :=
  lib_call call_import_kraken (env_import E).

Definition load_any_model (path : string) : M Model :=
  lib_call (call_load_any_model path) (env_load_any_model E path).

(** The recognizers receive a list of image objects. *)
Fixpoint img_get_all (refs : list nat) : M (list Image) :=
  match refs with
  | [] => mret []
  | r :: rest => im ← img_get r; ims ← img_get_all rest; mret (im :: ims)
  end.

Definition rpred_recognize (m : Model) (images : list nat) : M Preds :=
  ims ← img_get_all images;
  lib_call (call_recognize m ims) (env_recognize E m ims).

Definition rpred_rpred (m : Model) (images : list nat) : M Preds :=
  ims ← img_get_all images;
  lib_call (call_rpred m ims) (env_rpred E m ims).

End Calls.

(** ** Streamlit *)

(** The value of each widget at this run of the script. *)
Record Inputs : Type := mkInputs {
  in_model_path : string;
  in_upload : option string;
  in_threshold : Z;
  in_run_ocr : bool
}.

Definition st_image (image : nat) (caption : option string) : M unit :=
  im ← img_get image; emit (el_image im caption).

(** A widget is drawn and answers with its current value. *)
Definition st_text_input (label value : string) : M string :=
  emit (el_text_input label);; mret value.

Definition st_file_uploader (label : string) (value : option string)
  : M (option string) :=
  emit (el_file_uploader label);; mret value.

Definition st_button (label : string) (clicked : bool) : M bool :=
  emit (el_button label);; mret clicked.

Definition DEFAULT_MODEL_PATH : string := "models/vilne_yiddish_8a.mlmodel".

(** ** app_streamlit.py *)

Module AppStreamlit.
Section Script.
Context (E : Env).

(** The body of [if st.button("Run OCR"):], lines 37-105. *)
Definition run_ocr (image : nat) (model_path : string) : M unit :=
  tmpdir ← mkdtemp E;
  let input_path := path_join tmpdir "input.png" in
  let output_path := path_join tmpdir "output.txt" in
  pil_save E image input_path;;
  (* Try Kraken CLI first *)
  let cli_cmd :=
    ["kraken"; "-i"; input_path; output_path; "ocr"; "-m"; model_path;
     "--threads"; "1"] in
  emit (el_text "Attempting to run Kraken CLI...");;
  try_except
    (proc ← subprocess_run E cli_cmd;
     (* Read the output file and show recognized text *)
     found ← os_path_exists output_path;
     if found : bool then
       result ← open_read E output_path;
       emit (el_success "OCR completed via Kraken CLI");;
       emit (el_text_area "Recognized text" result)
     else
       emit (el_error "Kraken CLI ran but no output file created.");;
       emit (el_write [proc_stdout proc]);;
       emit (el_write [proc_stderr proc]))
    (fun e =>
       match e with
       | FileNotFoundError _ =>
           emit (el_warning ("Kraken CLI not found — falling back to Python API (if available)." ++ nl ++ "Install CLI with: `pip install kraken` or make sure `kraken` is in your PATH."));;
           (* Try Python API fallback *)
           try_except
             (import_kraken E;;
              emit (el_text "Running Kraken using Python API...");;
              model ← load_any_model E model_path;
              preds ← try_except
                        (rpred_recognize E model [image])
                        (fun _ => rpred_rpred E model [image]);
              let text_out :=
                match preds with
                | PredList items => join_lines (map py_str items)
                | PredSeq _ shown => shown
                | PredObj o => py_str o
                end in
              emit (el_success "OCR completed via Kraken Python API");;
              emit (el_text_area "Recognized text" text_out))
             (fun e =>
                emit (el_error ("Failed to use Kraken Python API: " ++ exn_str e));;
                emit (el_info "Make sure the 'kraken' package is installed (pip install kraken) or the 'kraken' CLI is available in PATH"))
       | CalledProcessError _ _ _ out err =>
           emit (el_error ("Kraken CLI failed: " ++ exn_str e));;
           emit (el_write ["STDOUT:" ++ nl; out]);;
           emit (el_write ["STDERR:" ++ nl; err])
       | OtherError _ _ =>
           emit (el_error ("Unexpected error while running OCR: " ++ exn_str e))
       end).

(** The whole script, lines 19-113. *)
Definition script (i : Inputs) : M unit :=
  emit (el_page_config "My Kraken Model");;
  emit (el_title "My Kraken Model");;
  emit (el_write ["Upload an image; text will be recognized using the Kraken HTR model."]);;
  model_path ← st_text_input "Model path" (in_model_path i);
  uploaded_file ← st_file_uploader "Upload an image" (in_upload i);
  match uploaded_file with
  | Some upload =>
      image ← try_except
                (open_convert E upload ModeL)
                (fun _ => (* try open as RGB *) open_convert E upload ModeRGB);
      st_image image (Some "Uploaded image");;
      clicked ← st_button "Run OCR" (in_run_ocr i);
      if clicked : bool then run_ocr image model_path else mret tt
  | None => mret tt
  end;;
  (* Show a small help section for dependencies *)
  emit (el_sidebar (el_header "Run instructions"));;
  emit (el_sidebar (el_markdown "1. Install the required dependencies in your environment:"));;
  emit (el_sidebar (el_code "pip install streamlit pillow kraken"));;
  emit (el_sidebar (el_markdown "2. Run the app:"));;
  emit (el_sidebar (el_code "streamlit run app_streamlit.py"));;
  emit (el_sidebar (el_markdown "If you prefer the Kraken CLI (recommended), ensure `kraken` is on your PATH.")).

End Script.
End AppStreamlit.

(** ** app.py

    The file as committed is not a Python program: the [try:] of line 74
    is never closed, and the interpreter rejects the file before it runs
    a line of it. Lines 21-72 repeat [app_streamlit.py] up to the handler
    for a missing executable and stop inside it; they are not embedded.
    Lines 89-238 are the complete text of a second script, the one with
    the threshold preview, pasted where the body of that [try:] would be.
    It is embedded here as [Inner], read as the script it is the text
    of. *)

Module App.

Definition dq : string := String (ascii_of_nat 34) EmptyString.

Definition indent (n : nat) : string :=
  String.concat EmptyString (repeat " "%string n).

(** The style sheet of lines 214-223. *)
Definition rtl_css : string :=
  nl ++ indent 28 ++ "<style>" ++ nl
  ++ indent 28 ++ "textarea[aria-label=" ++ dq ++ "Recognized text" ++ dq ++ "] {" ++ nl
  ++ indent 32 ++ "direction: rtl;" ++ nl
  ++ indent 32 ++ "text-align: right;" ++ nl
  ++ indent 32 ++ "font-family: 'DejaVu Sans', sans-serif;" ++ nl
  ++ indent 32 ++ "white-space: pre-wrap;" ++ nl
  ++ indent 28 ++ "}" ++ nl
  ++ indent 28 ++ "</style>" ++ nl
  ++ indent 28.

(** Truth value of [result_text] in [if result_text:]. *)
Definition truthy (t : option string) : bool :=
  match t with
  | Some (String _ _) => true
  | _ => false
  end.

Module Inner.
Section Script.
Context (E : Env).

(** The body of [if st.button("Run OCR"):], lines 144-208; the value is
    what [result_text] holds afterwards. *)
Definition run_ocr (processed : nat) (model_path : string)
  : M (option string) :=
  tmpdir ← mkdtemp E;
  let processed_input_path := path_join tmpdir "input_processed.png" in
  let output_path := path_join tmpdir "output.txt" in
  (* Save processed image to a file *)
  pil_save E processed processed_input_path;;
  let cli_cmd :=
    ["kraken"; "-i"; processed_input_path; output_path;
     "binarize"; "segment"; "ocr"; "-m"; model_path] in
  emit (el_text "Attempting to run Kraken CLI...");;
  try_except
    (proc ← subprocess_run E cli_cmd;
     found ← os_path_exists output_path;
     if found : bool then
       result_text ← open_read E output_path;
       emit (el_success "OCR completed via Kraken CLI");;
       mret (Some result_text)
     else
       emit (el_error "Kraken CLI ran but did not produce an output file.");;
       emit (el_write [proc_stdout proc]);;
       emit (el_write [proc_stderr proc]);;
       mret None)
    (fun e =>
       match e with
       | FileNotFoundError _ =>
           emit (el_warning "Kraken CLI not found — attempting Kraken Python API fallback.");;
           try_except
             (import_kraken E;;
              emit (el_text "Loading model and running Kraken Python API...");;
              model ← load_any_model E model_path;
              (* Try recognize on the processed image *)
              preds ← try_except
                        (rpred_recognize E model [processed])
                        (fun _ => rpred_rpred E model [processed]);
              let result_text :=
                match preds with
                | PredList items => join_lines (map py_str items)
                | PredSeq _ shown => shown
                | PredObj o => py_str o
                end in
              emit (el_success "OCR completed via Kraken Python API");;
              mret (Some result_text))
             (fun e =>
                emit (el_error ("Failed to use Kraken Python API: " ++ exn_str e));;
                emit (el_info "Install the 'kraken' package or ensure the 'kraken' CLI is available in PATH.");;
                mret None)
       | CalledProcessError _ _ _ out err =>
           emit (el_error ("Kraken CLI failed: " ++ exn_str e));;
           emit (el_write ["STDOUT:" ++ nl; out]);;
           emit (el_write ["STDERR:" ++ nl; err]);;
           mret None
       | OtherError _ _ =>
           emit (el_error ("Unexpected error while running OCR: " ++ exn_str e));;
           mret None
       end).

(** Lines 227-238. *)
Definition show_result (result_text : option string) : M unit :=
  if truthy result_text then
    let text := default EmptyString result_text in
    emit (el_subheader "Recognized text");;
    emit (el_text_area "Recognized text" text);;
    emit (el_download_button "Download Text" text "recognized.txt" "text/plain")
  else mret tt.

(** Lines 98-238. *)
Definition script (i : Inputs) : M unit :=
  emit (el_page_config "Vilne Yiddish OCR");;
  emit (el_title "Vilne Yiddish OCR — Kraken");;
  emit (el_write ["Upload an image and tune the binarization threshold until the letters are crisp."]);;
  (* Sidebar controls *)
  emit (el_sidebar (el_header "Settings"));;
  emit (el_sidebar (el_text_input "Model path"));;
  let model_path := in_model_path i in
  emit (el_sidebar (el_slider "Binarization Threshold"));;
  let threshold := in_threshold i in
  emit (el_sidebar (el_markdown "---"));;
  emit (el_sidebar (el_markdown "Dependencies:"));;
  emit (el_sidebar (el_code "pip install -r requirements.txt"));;
  uploaded_file ← st_file_uploader "Upload an image" (in_upload i);
  match uploaded_file with
  | Some upload =>
      (* Open original image *)
      orig ← try_except
               (o ← image_open E upload; mret (Some o))
               (fun e =>
                  emit (el_error ("Failed to open image: " ++ exn_str e));;
                  mret None);
      match orig with
      | Some orig =>
          emit (el_subheader "Original Image");;
          st_image orig None;;
          (* Apply threshold preview *)
          processed ← apply_threshold orig threshold;
          emit (el_subheader "Processed Image (Black & White)");;
          st_image processed (Some ("Threshold = " ++ pretty threshold));;
          (* Begin OCR when user clicks *)
          clicked ← st_button "Run OCR" (in_run_ocr i);
          result_text ← (if clicked : bool then run_ocr processed model_path
                         else mret None);
          emit (el_markdown rtl_css);;
          (* If result_text is available, show and allow download *)
          show_result result_text
      | None => mret tt
      end
  | None => mret tt
  end.

End Script.
End Inner.

End App.

(** ** Vocabulary of the statements *)

(** The image [apply_threshold(image, thresh)] returns, read back from the
    object store. *)
Definition thresholded (w : World) (image : nat) (thresh : Z) : option Image :=
  match apply_threshold image thresh w with
  | (Ok bw, w') => w_imgs w' !! bw
  | _ => None
  end.

(** What [apply_threshold] does to one gray value: the table built from
    its lambda, looked up at [v]. *)
Definition threshold_pixel (thresh v : Z) : Z :=
  table_apply (point_table (fun p => if p >? thresh then 255 else 0)) v.

Definition binary_image (im : Image) : Prop :=
  match im with
  | ImL _ _ d => Forall (fun v => v = 0 \/ v = 255) d
  | ImRGB _ _ _ => False
  end.

Section Workspace.
Context (E : Env) (w : World).

(** The directory [tempfile.mkdtemp()] creates in world [w]. *)
Definition ws_dir : string := env_mkdtemp E (w_fs w).

Definition ws_output : string := path_join ws_dir "output.txt".

(** The file system when the child process starts: the directory and
    the saved image [im] under file name [name]. *)
Definition ws_fs (name : string) (im : Image) : gmap string node :=
  <[path_join ws_dir name := File (env_png E im)]> (<[ws_dir := Dir]> (w_fs w)).

(** The command line of app_streamlit.py. *)
Definition cmd_ocr (model_path : string) : list string :=
  ["kraken"; "-i"; path_join ws_dir "input.png"; ws_output; "ocr"; "-m";
   model_path; "--threads"; "1"].

(** The command line of the second script of app.py, for input [name]. *)
Definition cmd_pipeline (name model_path : string) : list string :=
  ["kraken"; "-i"; path_join ws_dir name; ws_output;
   "binarize"; "segment"; "ocr"; "-m"; model_path].

(** The directory is created and the image [im] is saved into it under
    the file name [name]. *)
Definition workspace_ready (name : string) (im : Image) : Prop :=
  env_mkdtemp_error E (w_fs w) = None
  /\ env_save_error E im (path_join ws_dir name) (<[ws_dir := Dir]> (w_fs w))
     = None.

(** The workspace is set up and the child process is started with [cmd]:
    how it ends, and the files it leaves. *)
Definition cli_ends (name : string) (im : Image) (cmd : list string)
  (ended : spawn) (fs' : gmap string node) : Prop :=
  workspace_ready name im
  /\ env_run E cmd (ws_fs name im) = (ended, fs').
End Workspace.

(** The file system after the calls [cs] into the kraken package, made in
    this order from [fs]. *)
Definition lib_fs (E : Env) (cs : list call) (fs : gmap string node)
  : gmap string node :=
  fold_left (fun fs c => env_lib_fs E c fs) cs fs.

(** The text the scripts make of [preds] (app_streamlit.py lines 87-90,
    app.py lines 190-193): the items joined when [preds] is a list, its
    [str()] otherwise. *)
Definition preds_text (preds : Preds) : string :=
  match preds with
  | PredList items => join_lines (map py_str items)
  | PredSeq _ shown => shown
  | PredObj o => py_str o
  end.

(** The normalization as the specification words it: when the result is
    a sequence, the string forms of its elements joined by newlines;
    otherwise its string form. *)
Definition spec_normalize (preds : Preds) : string :=
  match preds with
  | PredList items => join_lines (map py_str items)
  | PredSeq items _ => join_lines (map py_str items)
  | PredObj o => py_str o
  end.

(** Elements and calls added by a run that took [w] to [w']. *)
Definition page_since (w w' : World) : list element :=
  drop (length (w_page w)) (w_page w').

Definition calls_since (w w' : World) : list call :=
  drop (length (w_calls w)) (w_calls w').

Definition is_fallback_call (c : call) : bool :=
  match c with
  | call_import_kraken | call_load_any_model _
  | call_recognize _ _ | call_rpred _ _ => true
  | _ => false
  end.

Definition is_text_area (e : element) : bool :=
  match e with el_text_area _ _ => true | _ => false end.



Definition is_subprocess (c : call) : bool :=
  match c with call_subprocess _ => true | _ => false end.

(** A carriage return occurs in the text. *)
Fixpoint has_cr (s : string) : bool :=
  match s with
  | EmptyString => false
  | String c r => Ascii.eqb c CR || has_cr r
  end.

Definition is_open_convert (c : call) : bool :=
  match c with call_open_convert _ _ => true | _ => false end.

Definition is_recognizer_call (c : call) : bool :=
  match c with call_recognize _ _ | call_rpred _ _ => true | _ => false end.

(** A relation between the world before and after holds for every run. *)
Definition preserves (R : World -> World -> Prop) {A} (m : M A) : Prop :=
  forall w, R w (m w).2.

(** No path disappears. *)
Definition fs_kept (fs fs' : gmap string node) : Prop :=
  forall p, is_Some (fs !! p) -> is_Some (fs' !! p).

Definition files_kept (w w' : World) : Prop := fs_kept (w_fs w) (w_fs w').

(** The page and the record of calls only grow, the latter by calls that
    satisfy [P]. *)
Definition log_grows (P : call -> bool) (w w' : World) : Prop :=
  (exists es, w_page w' = (w_page w ++ es)%list)
  /\ (exists cs, w_calls w' = (w_calls w ++ cs)%list /\ forallb P cs = true).

Definition not_open_convert (c : call) : bool := negb (is_open_convert c).

(** The child process removes nothing. *)
Definition child_keeps_files (E : Env) : Prop :=
  forall cmd fs, fs_kept fs (env_run E cmd fs).2.

(** No call into the kraken package removes anything. *)
Definition lib_keeps_files (E : Env) : Prop :=
  forall c fs, fs_kept fs (env_lib_fs E c fs).

(** The world a handler leaves: the objects of [w], the file system
    [fs'], and the page and the record of calls of [w] extended. *)
Definition grown (w : World) (fs' : gmap string node)
    (es : list element) (cs : list call) : World :=
  mkWorld (w_imgs w) fs' (w_page w ++ es) (w_calls w ++ cs).

Section Traces.
Context (E : Env) (w : World).

(** The calls up to the start of the child process. *)
Definition cli_calls (name : string) (cmd : list string) : list call :=
  [call_mkdtemp (ws_dir E w); call_save (path_join (ws_dir E w) name);
   call_subprocess cmd].

(** The calls of the fallback up to the first recognizer. *)
Definition fallback_calls (model_path : string) (m : Model) (im : Image)
  : list call :=
  [call_import_kraken; call_load_any_model model_path; call_recognize m [im]].
End Traces.

Definition is_import_call (c : call) : bool :=
  match c with call_import_kraken => true | _ => false end.

(** The messages of the fallback. *)
Definition cli_missing_warning : string :=
  "Kraken CLI not found — falling back to Python API (if available)." ++ nl
  ++ "Install CLI with: `pip install kraken` or make sure `kraken` is in your PATH.".

Definition cli_missing_warning_inner : string :=
  "Kraken CLI not found — attempting Kraken Python API fallback.".

Definition guidance : string :=
  "Make sure the 'kraken' package is installed (pip install kraken) or the 'kraken' CLI is available in PATH".

Definition guidance_inner : string :=
  "Install the 'kraken' package or ensure the 'kraken' CLI is available in PATH.".

(** The workspace of a run from [w] to [w']: every path that existed in
    [w] exists in [w']; the directory, once created, exists in [w']; and
    once the image is saved into it, the image and everything the child
    process left exist in [w']. *)
Definition workspace_kept (E : Env) (w : World) (name : string) (im : Image)
    (cmd : list string) (w' : World) : Prop :=
  files_kept w w'
  /\ (env_mkdtemp_error E (w_fs w) = None -> is_Some (w_fs w' !! ws_dir E w))
  /\ (workspace_ready E w name im ->
      is_Some (w_fs w' !! path_join (ws_dir E w) name)
      /\ fs_kept (env_run E cmd (ws_fs E w name im)).2 (w_fs w')).

(** The elements app_streamlit.py draws before it decodes the upload. *)
Definition page_head : list element :=
  [el_page_config "My Kraken Model"; el_title "My Kraken Model";
   el_write ["Upload an image; text will be recognized using the Kraken HTR model."];
   el_text_input "Model path"; el_file_uploader "Upload an image"].

(** The bitmap [im] was obtained by the decoding calls [decodes], no other
    decoding call was made, and the page shows it with the OCR button. *)
Definition shown (im : Image) (decodes : list call) (w w' : World) : Prop :=
  exists cs es,
    calls_since w w' = (decodes ++ cs)%list
    /\ forallb not_open_convert cs = true
    /\ page_since w w' =
         (page_head
          ++ [el_image im (Some "Uploaded image"); el_button "Run OCR"]
          ++ es)%list.


(** ** A concrete environment *)

Definition sample_gray : Image := ImL 2 2 [0; 100; 128; 255].
Definition sample_rgb : Image := ImRGB 2 1 [(250, 240, 230); (10, 20, 30)].

(** The child process ends as [ended]; when [output] is given it writes
    these bytes to its output path, the fourth word of the command. *)
Definition sample_env (ended : spawn) (output : option string)
    (import : result unit) (load : result Model)
    (a b : result Preds) (as_l as_rgb : result Image) : Env :=
  {| env_mkdtemp := fun _ => "/tmp/tmpk7";
     env_mkdtemp_error := fun _ => None;
     env_png := fun _ => "PNG";
     env_save_error := fun _ _ _ => None;
     env_run := fun cmd fs =>
       (ended,
        match output, cmd !! 3%nat with
        | Some raw, Some out => <[out := File raw]> fs
        | _, _ => fs
        end);
     env_decode := fun raw =>
       if utf8_valid raw then Some (translate_newlines raw) else None;
     env_decode_error := fun _ => "'utf-8' codec can't decode byte";
     env_utf8_error := fun _ => "'utf-8' codec can't decode byte";
     env_cpe_str := fun _ _ => "Command returned non-zero exit status.";
     env_oserror_str := fun _ path => "[Errno] " ++ path;
     env_lib_fs := fun _ fs => fs;
     env_import := import;
     env_load_any_model := fun _ => load;
     env_recognize := fun _ _ => a;
     env_rpred := fun _ _ => b;
     env_open_convert := fun _ m =>
       match m with ModeL => as_l | ModeRGB => as_rgb end;
     env_open := fun _ => as_l |}.

(** A byte that starts no UTF-8 sequence. *)
Definition bad_bytes : string := String (ascii_of_nat 255) EmptyString.

Definition crlf_text : string := "a" ++ String CR (String LF "b").
Definition lf_text : string := "a" ++ String LF "b".

Definition sample_model : Model := {| model_source := DEFAULT_MODEL_PATH |}.

(** The executable runs, exits with [code] and leaves [output]. *)
Definition env_cli (code : Z) (output : option string) : Env :=
  sample_env (Exited code "out" "err") output (Ok tt) (Ok sample_model)
    (Ok (PredList [])) (Ok (PredList [])) (Ok sample_gray) (Ok sample_rgb).

(** The executable runs, writes to stdout a byte that does not decode,
    exits with [code] and leaves [output]. *)
Definition env_garbled (code : Z) (output : option string) : Env :=
  sample_env (Exited code bad_bytes "err") output (Ok tt) (Ok sample_model)
    (Ok (PredList [])) (Ok (PredList [])) (Ok sample_gray) (Ok sample_rgb).

(** A tuple of two lines, with the string form Python gives it. *)
Definition sample_tuple : Preds :=
  PredSeq [{| py_str := "a" |}; {| py_str := "b" |}] "('a', 'b')".

(** The executable is missing; the package answers as given. *)
Definition env_no_cli (import : result unit) (a b : result Preds) : Env :=
  sample_env (SpawnNotFound "[Errno 2] No such file or directory: 'kraken'")
    None import (Ok sample_model) a b (Ok sample_gray) (Ok sample_rgb).

(** A world holding one image object, reference 0. *)
Definition sample_world (im : Image) : World := mkWorld [im] ∅ [] [].

Definition sample_inputs (upload : option string) (run : bool) : Inputs :=
  mkInputs DEFAULT_MODEL_PATH upload 128 run.

(** ** Vocabulary of the further properties *)

(** The image [apply_threshold] returns for [im]: the gray copy, put
    through the table of the cutoff. *)
Definition binarized (thresh : Z) (im : Image) : Image :=
  point_data (fun p => if p >? thresh then 255 else 0) (convert_data ModeL im).

(** Width, height and number of pixels. *)
Definition im_size (im : Image) : nat * nat * nat :=
  match im with
  | ImL w h d => (w, h, length d)
  | ImRGB w h d => (w, h, length d)
  end.

(** The band of a grayscale image. *)
Definition gray_data (im : Image) : list Z :=
  match im with
  | ImL _ _ d => d
  | ImRGB _ _ _ => []
  end.

Definition is_success (e : element) : bool :=
  match e with el_success _ => true | _ => false end.

Definition is_error (e : element) : bool :=
  match e with el_error _ => true | _ => false end.

Definition is_outcome (e : element) : bool := is_success e || is_error e.

Definition is_mkdtemp (c : call) : bool :=
  match c with call_mkdtemp _ => true | _ => false end.

Definition is_save (c : call) : bool :=
  match c with call_save _ => true | _ => false end.

(** The help section app_streamlit.py draws last (lines 107-113). *)
Definition sidebar_help : list element :=
  [el_sidebar (el_header "Run instructions");
   el_sidebar (el_markdown "1. Install the required dependencies in your environment:");
   el_sidebar (el_code "pip install streamlit pillow kraken");
   el_sidebar (el_markdown "2. Run the app:");
   el_sidebar (el_code "streamlit run app_streamlit.py");
   el_sidebar (el_markdown "If you prefer the Kraken CLI (recommended), ensure `kraken` is on your PATH.")].

(** The elements the second script of app.py draws before it opens the
    upload (lines 98-121). *)
Definition inner_head : list element :=
  [el_page_config "Vilne Yiddish OCR";
   el_title "Vilne Yiddish OCR — Kraken";
   el_write ["Upload an image and tune the binarization threshold until the letters are crisp."];
   el_sidebar (el_header "Settings");
   el_sidebar (el_text_input "Model path");
   el_sidebar (el_slider "Binarization Threshold");
   el_sidebar (el_markdown "---");
   el_sidebar (el_markdown "Dependencies:");
   el_sidebar (el_code "pip install -r requirements.txt");
   el_file_uploader "Upload an image"].

(** The preview of the second script for the upload [orig] and cutoff
    [thresh] (lines 134-143), with the style sheet drawn after the button. *)
Definition inner_preview (orig : Image) (thresh : Z) : list element :=
  [el_subheader "Original Image";
   el_image orig None;
   el_subheader "Processed Image (Black & White)";
   el_image (binarized thresh orig) (Some ("Threshold = " ++ pretty thresh));
   el_button "Run OCR"].

(** What the second script draws for the text [text] (lines 228-238). *)
Definition inner_result (text : string) : list element :=
  match text with
  | EmptyString => []
  | _ =>
      [el_subheader "Recognized text";
       el_text_area "Recognized text" text;
       el_download_button "Download Text" text "recognized.txt" "text/plain"]
  end.

(** The world in which the handler of the second script starts: the
    upload [orig], its gray copy and the thresholded image are in the
    store, the preview is on the page. *)
Definition inner_started (w : World) (upload : string) (orig : Image)
    (thresh : Z) : World :=
  mkWorld (w_imgs w ++ [orig; convert_data ModeL orig; binarized thresh orig])
    (w_fs w)
    (w_page w ++ inner_head ++ inner_preview orig thresh)
    (w_calls w ++ [call_open upload]).

(** The image of the size of [im] with every pixel [v]. *)
Definition solid (v : Z) (im : Image) : Image :=
  match im with
  | ImL w h d => ImL w h (map (fun _ => v) d)
  | ImRGB w h d => ImL w h (map (fun _ => v) d)
  end.

(** The calls that set up the workspace and start the child process. *)
Definition is_workspace_call (c : call) : bool :=
  is_mkdtemp c || is_save c || is_subprocess c.

(** * Properties *)

(** Projections of a world that is given explicitly. *)
Ltac proj := cbn [w_imgs w_fs w_page w_calls fst snd].

(** ** The threshold preprocessor *)

Section Threshold.

Lemma table_apply_in_range (f : Z -> Z) (v : Z) :
  0 <= v <= 255 -> table_apply (point_table f) v = f v.
Proof.
  intros Hv. unfold table_apply, point_table.
  rewrite list_lookup_fmap, lookup_seqZ_lt by lia.
  simpl. f_equal. lia.
Qed.

Lemma table_apply_cases (f : Z -> Z) (v : Z) :
  table_apply (point_table f) v = 0
  \/ exists p, 0 <= p <= 255 /\ table_apply (point_table f) v = f p.
Proof.
  unfold table_apply, point_table. rewrite list_lookup_fmap.
  destruct (seqZ 0 256 !! Z.to_nat v) as [p|] eqn:Hp; simpl; [|by left].
  apply lookup_seqZ in Hp as [-> Hlt]. right. eexists. split; [|done]. lia.
Qed.

Lemma is_u8_spec (v : Z) : is_u8 v = true <-> 0 <= v <= 255.
Proof. unfold is_u8. rewrite andb_true_iff, !Z.leb_le. tauto. Qed.

Lemma luma_u8 (r g b : Z) :
  0 <= r <= 255 -> 0 <= g <= 255 -> 0 <= b <= 255 ->
  0 <= luma (r, g, b) <= 255.
Proof.
  intros Hr Hg Hb. unfold luma. rewrite Z.shiftr_div_pow2 by lia.
  change (2 ^ 16) with 65536. split.
  - apply Z.div_pos; lia.
  - apply Z.lt_succ_r, Z.div_lt_upper_bound; lia.
Qed.

(** The gray values of a well-formed bitmap are bytes again. *)
Lemma convert_L_u8 (im : Image) (w h : nat) (d : list Z) :
  wf_image im = true -> convert_data ModeL im = ImL w h d ->
  Forall (fun v => 0 <= v <= 255) d.
Proof.
  destruct im as [w0 h0 d0 | w0 h0 d0]; simpl; intros Hwf [= _ _ <-].
  - apply Forall_forall. intros v Hv.
    rewrite forallb_forall in Hwf. apply is_u8_spec, Hwf.
    by apply list_elem_of_In.
  - apply Forall_fmap, Forall_forall. intros [[r g] b] Hp.
    rewrite forallb_forall in Hwf.
    specialize (Hwf (r, g, b)). simpl in Hwf.
    rewrite !andb_true_iff, !is_u8_spec in Hwf.
    apply luma_u8; apply Hwf; by apply list_elem_of_In.
Qed.

Lemma convert_L_is_L (im : Image) :
  exists w h d, convert_data ModeL im = ImL w h d.
Proof. destruct im; simpl; eauto. Qed.

(** One run of [apply_threshold]: two objects are added to the store,
    the gray copy and the thresholded image, and nothing else moves. *)
Lemma apply_threshold_run (w : World) (image : nat) (im : Image) (t : Z) :
  w_imgs w !! image = Some im ->
  let gray := convert_data ModeL im in
  let bw := point_data (fun p => if p >? t then 255 else 0) gray in
  apply_threshold image t w =
    (Ok (S (length (w_imgs w))),
     mkWorld (w_imgs w ++ [gray; bw]) (w_fs w) (w_page w) (w_calls w)).
Proof.
  intros Him gray bw.
  cbv [apply_threshold pil_convert pil_point img_get img_new mbind M_bind
       mret M_ret].
  proj. rewrite Him. proj.
  rewrite lookup_app_r, Nat.sub_diag by lia. simpl.
  rewrite length_app, Nat.add_1_r, <- app_assoc. reflexivity.
Qed.

Lemma thresholded_eq (w : World) (image : nat) (im : Image) (t : Z) :
  w_imgs w !! image = Some im ->
  thresholded w image t =
    Some (point_data (fun p => if p >? t then 255 else 0)
            (convert_data ModeL im)).
Proof.
  intros Him. unfold thresholded.
  rewrite (apply_threshold_run _ _ _ _ Him). simpl.
  rewrite lookup_app_r by lia.
  replace (S (length (w_imgs w)) - length (w_imgs w))%nat with 1%nat by lia.
  reflexivity.
Qed.

Lemma threshold_pixel_in_range (c v : Z) :
  0 <= v <= 255 -> threshold_pixel c v = if v >? c then 255 else 0.
Proof. intros Hv. unfold threshold_pixel. by rewrite table_apply_in_range. Qed.

Lemma threshold_pixel_binary (c v : Z) :
  threshold_pixel c v = 0 \/ threshold_pixel c v = 255.
Proof.
  unfold threshold_pixel.
  destruct (table_apply_cases (fun p => if p >? c then 255 else 0) v)
    as [->|(p & _ & ->)]; [by left|].
  destruct (p >? c); auto.
Qed.

Lemma threshold_pixel_idem (c v : Z) :
  0 <= v <= 255 ->
  threshold_pixel c (threshold_pixel c v) = threshold_pixel c v.
Proof.
  intros Hv. rewrite (threshold_pixel_in_range c v Hv).
  destruct (v >? c) eqn:Hvc; rewrite threshold_pixel_in_range by lia.
  - apply Z.gtb_lt in Hvc.
    destruct (255 >? c) eqn:Hc; [done|].
    rewrite Z.gtb_ltb, Z.ltb_ge in Hc. lia.
  - rewrite Z.gtb_ltb, Z.ltb_ge in Hvc.
    destruct (0 >? c) eqn:Hc; [|done].
    apply Z.gtb_lt in Hc. lia.
Qed.

End Threshold.

(** C6. For a cutoff [c] and a pixel intensity [v], both in 0..255, the
    threshold preprocessor maps [v] to 255 when [v > c] and to 0
    otherwise; with cutoff 255 every pixel maps to 0, with cutoff 0 every
    [v > 0] maps to 255. The image [apply_threshold] returns for a
    grayscale input holds exactly these values, pixel by pixel. *)
Theorem threshold_maps_pixels (c v : Z) :
  0 <= c <= 255 -> 0 <= v <= 255 ->
  threshold_pixel c v = (if v >? c then 255 else 0)
  /\ threshold_pixel 255 v = 0
  /\ (0 < v -> threshold_pixel 0 v = 255)
  /\ forall (w : World) (image wd ht : nat) (vs : list Z),
       w_imgs w !! image = Some (ImL wd ht vs) ->
       thresholded w image c = Some (ImL wd ht (map (threshold_pixel c) vs)).
Proof.
  intros Hc Hv. repeat split.
  - by apply threshold_pixel_in_range.
  - rewrite threshold_pixel_in_range by done.
    destruct (v >? 255) eqn:H; [|done]. apply Z.gtb_lt in H. lia.
  - intros Hpos. rewrite threshold_pixel_in_range by done.
    destruct (v >? 0) eqn:H; [done|].
    rewrite Z.gtb_ltb, Z.ltb_ge in H. lia.
  - intros w image wd ht vs Him. by rewrite (thresholded_eq _ _ _ _ Him).
Qed.

Lemma threshold_maps_pixels_witness :
  threshold_pixel 128 200 = (if 200 >? 128 then 255 else 0)
  /\ threshold_pixel 255 200 = 0
  /\ (0 < 200 -> threshold_pixel 0 200 = 255)
  /\ forall (w : World) (image wd ht : nat) (vs : list Z),
       w_imgs w !! image = Some (ImL wd ht vs) ->
       thresholded w image 128 = Some (ImL wd ht (map (threshold_pixel 128) vs)).
Proof. apply (threshold_maps_pixels 128 200); lia. Defined.

Lemma point_idem_data (c : Z) (d : list Z) :
  Forall (fun v => 0 <= v <= 255) d ->
  map (threshold_pixel c) (map (threshold_pixel c) d) = map (threshold_pixel c) d.
Proof.
  induction 1 as [|v d Hv _ IH]; [done|].
  simpl. by rewrite threshold_pixel_idem, IH.
Qed.

(** C7. The threshold preprocessor is idempotent: for every pixel
    intensity [v] and every cutoff [c], thresholding the thresholded
    value gives it again; and [apply_threshold] applied to the image it
    returned, with the same cutoff, returns an equal image. *)
Theorem threshold_idempotent (c v : Z) :
  0 <= v <= 255 ->
  threshold_pixel c (threshold_pixel c v) = threshold_pixel c v
  /\ forall (w : World) (image : nat) (im : Image),
       w_imgs w !! image = Some im -> wf_image im = true ->
       exists bw w' out,
         apply_threshold image c w = (Ok bw, w')
         /\ thresholded w image c = Some out
         /\ thresholded w' bw c = Some out.
Proof.
  intros Hv. split; [by apply threshold_pixel_idem|].
  intros w image im Him Hwf.
  pose proof (apply_threshold_run w image im c Him) as Hrun. cbv zeta in Hrun.
  destruct (convert_L_is_L im) as (wd & ht & d & Hgray).
  pose proof (convert_L_u8 im wd ht d Hwf Hgray) as Hd.
  do 3 eexists. split; [exact Hrun|]. split.
  - by apply thresholded_eq.
  - erewrite thresholded_eq; last first.
    { proj. rewrite lookup_app_r by lia.
      replace (S (length (w_imgs w)) - length (w_imgs w))%nat with 1%nat by lia.
      reflexivity. }
    rewrite Hgray. simpl. f_equal. f_equal. by apply point_idem_data.
Qed.

Lemma threshold_idempotent_witness :
  threshold_pixel 128 (threshold_pixel 128 200) = threshold_pixel 128 200
  /\ forall (w : World) (image : nat) (im : Image),
       w_imgs w !! image = Some im -> wf_image im = true ->
       exists bw w' out,
         apply_threshold image 128 w = (Ok bw, w')
         /\ thresholded w image 128 = Some out
         /\ thresholded w' bw 128 = Some out.
Proof. apply (threshold_idempotent 128 200); lia. Defined.

Lemma point_binary (c : Z) (im : Image) :
  binary_image (point_data (fun p => if p >? c then 255 else 0)
                  (convert_data ModeL im)).
Proof.
  destruct (convert_L_is_L im) as (wd & ht & d & ->). simpl.
  apply Forall_fmap, Forall_forall. intros v _.
  apply (threshold_pixel_binary c v).
Qed.

(** C10. For an input image of either mode and any cutoff,
    [apply_threshold] first makes a grayscale copy and returns a new
    single-band image, of the size of the input, whose every pixel is 0
    or 255; the input object, like every object that existed before, is
    unchanged. *)
Theorem apply_threshold_new_binary (w : World) (image : nat) (im : Image)
    (thresh : Z) :
  w_imgs w !! image = Some im ->
  exists bw w' out,
    apply_threshold image thresh w = (Ok bw, w')
    /\ w_imgs w' !! length (w_imgs w) = Some (convert_data ModeL im)
    /\ w_imgs w' !! bw = Some out
    /\ out = point_data (fun p => if p >? thresh then 255 else 0)
               (convert_data ModeL im)
    /\ im_mode out = ModeL
    /\ binary_image out
    /\ w_imgs w !! bw = None
    /\ bw <> image
    /\ w_imgs w' !! image = Some im
    /\ (forall r o, w_imgs w !! r = Some o -> w_imgs w' !! r = Some o)
    /\ w_fs w' = w_fs w /\ w_page w' = w_page w /\ w_calls w' = w_calls w.
Proof.
  intros Him.
  pose proof (apply_threshold_run w image im thresh Him) as Hrun. cbv zeta in Hrun.
  pose proof (lookup_lt_Some _ _ _ Him) as Hlt.
  do 3 eexists. split; [exact Hrun|]. proj.
  split; [by rewrite lookup_app_r, Nat.sub_diag by lia|].
  split.
  { rewrite lookup_app_r by lia.
    replace (S (length (w_imgs w)) - length (w_imgs w))%nat with 1%nat by lia.
    reflexivity. }
  split; [done|].
  split; [by destruct (convert_L_is_L im) as (? & ? & ? & ->)|].
  split; [apply point_binary|].
  split; [apply lookup_ge_None; lia|].
  split; [lia|].
  split; [by apply lookup_app_l_Some|].
  split; [intros r o Hr; by apply lookup_app_l_Some|done].
Qed.

Lemma apply_threshold_new_binary_witness :
  exists bw w' out,
    apply_threshold 0 128 (sample_world sample_rgb) = (Ok bw, w')
    /\ w_imgs w' !! 0%nat = Some sample_rgb
    /\ w_imgs w' !! bw = Some out
    /\ out = ImL 2 1 [255; 0].
Proof.
  destruct (apply_threshold_new_binary (sample_world sample_rgb) 0 sample_rgb 128
              eq_refl)
    as (bw & w' & out & Hrun & _ & Hout & Heq & _ & _ & _ & _ & Hin & _).
  exists bw, w', out.
  repeat split; [exact Hrun | exact Hin | exact Hout | rewrite Heq; reflexivity].
Defined.

(** ** The OCR invoker *)

Ltac unfold_script :=
  cbv [AppStreamlit.run_ocr App.Inner.run_ocr
       mkdtemp pil_save subprocess_run decode_captured os_path_exists
       open_read read_text lib_call
       import_kraken load_any_model rpred_recognize rpred_rpred img_get_all
       img_get img_new emit record get_fs put_fs raise abort lift try_except
       mbind M_bind mret M_ret grown cli_calls fallback_calls
       cli_ends workspace_ready ws_dir ws_output ws_fs cmd_ocr cmd_pipeline
       w_imgs w_fs w_page w_calls] in *.

Ltac step := cbv beta iota zeta; proj.

(** Replace the answer of the environment named by [H] and go on. *)
Ltac by_fact H := repeat (rewrite H; step).

Ltac finish := rewrite <- ?app_assoc; reflexivity.

(** Run the handler up to the end of the child process [Hrun], for the
    image [Him]. *)
Ltac start Him Hrun :=
  unfold_script;
  let Hdir := fresh "Hdir" in
  let Hsave := fresh "Hsave" in
  destruct Hrun as [[Hdir Hsave] Hrun];
  step; by_fact Hdir; by_fact Him; by_fact Hsave; by_fact Hrun.

Lemma translate_newlines_no_cr (s : string) :
  has_cr s = false -> translate_newlines s = s.
Proof.
  induction s as [|c r IH]; [done|].
  simpl. intros [Hc Hr]%orb_false_elim. rewrite Hc. f_equal. auto.
Qed.

(** C1, as amended. When the child process exits with status zero, what
    it wrote to stdout and stderr decodes as text, and the output file
    exists and holds the UTF-8 text [T], the outcome is success and the
    recognized text reported is [T] with every line ending (CR LF, or CR
    alone) translated to LF; it is [T] itself when [T] has no carriage
    return. *)
Theorem cli_success_reports_text (E : Env) (w : World) (image : nat)
    (im : Image) (mp out err sout serr T : string) :
  w_imgs w !! image = Some im ->
  env_decode E out = Some sout ->
  env_decode E err = Some serr ->
  utf8_valid T = true ->
  (forall fs',
     cli_ends E w "input.png" im (cmd_ocr E w mp) (Exited 0 out err) fs' ->
     fs' !! ws_output E w = Some (File T) ->
     AppStreamlit.run_ocr E image mp w =
       (Ok tt,
        grown w fs'
          [el_text "Attempting to run Kraken CLI...";
           el_success "OCR completed via Kraken CLI";
           el_text_area "Recognized text" (translate_newlines T)]
          (cli_calls E w "input.png" (cmd_ocr E w mp)
           ++ [call_exists (ws_output E w); call_read (ws_output E w)])))
  /\ (forall fs',
       cli_ends E w "input_processed.png" im
         (cmd_pipeline E w "input_processed.png" mp) (Exited 0 out err) fs' ->
       fs' !! ws_output E w = Some (File T) ->
       App.Inner.run_ocr E image mp w =
         (Ok (Some (translate_newlines T)),
          grown w fs'
            [el_text "Attempting to run Kraken CLI...";
             el_success "OCR completed via Kraken CLI"]
            (cli_calls E w "input_processed.png"
               (cmd_pipeline E w "input_processed.png" mp)
             ++ [call_exists (ws_output E w); call_read (ws_output E w)])))
  /\ (has_cr T = false -> translate_newlines T = T).
Proof.
  intros Him Hout Herr HT. split; [|split].
  1-2: intros fs' Hrun Hfile; start Him Hrun; by_fact Hout; by_fact Herr;
       change (0 =? 0) with true; step; by_fact Hfile; by_fact HT; finish.
  apply translate_newlines_no_cr.
Qed.

Lemma cli_success_reports_text_witness :
  let E := env_cli 0 (Some "הלל") in
  let w := sample_world sample_gray in
  AppStreamlit.run_ocr E 0 "m" w =
    (Ok tt,
     grown w (<[ws_output E w := File "הלל"]> (ws_fs E w "input.png" sample_gray))
       [el_text "Attempting to run Kraken CLI...";
        el_success "OCR completed via Kraken CLI";
        el_text_area "Recognized text" "הלל"]
       (cli_calls E w "input.png" (cmd_ocr E w "m")
        ++ [call_exists (ws_output E w); call_read (ws_output E w)])).
Proof.
  intros E w.
  destruct (cli_success_reports_text E w 0 sample_gray "m" "out" "err" "out" "err"
              "הלל" eq_refl eq_refl eq_refl eq_refl) as [H _].
  apply (H _ (conj (conj eq_refl eq_refl) eq_refl)). apply lookup_insert_eq.
Defined.

(** C1 as stated fails, in two ways. First, the process exits with status
    zero and leaves an output file with the two lines [a] and [b]
    separated by CR LF; the text reported has them separated by LF, which
    is not the text of the file. Second, the process exits with status
    zero and leaves a readable output file, but wrote to stdout a byte
    that does not decode: the outcome is the "Unexpected error" message,
    not success, and the file is not read. *)
Lemma cli_success_exact_text_counterexample :
  let w := sample_world sample_gray in
  (let E := env_cli 0 (Some crlf_text) in
   let fs' := <[ws_output E w := File crlf_text]> (ws_fs E w "input.png" sample_gray) in
   cli_ends E w "input.png" sample_gray (cmd_ocr E w "m") (Exited 0 "out" "err") fs'
   /\ fs' !! ws_output E w = Some (File crlf_text)
   /\ utf8_valid crlf_text = true
   /\ AppStreamlit.run_ocr E 0 "m" w =
        (Ok tt,
         grown w fs'
           [el_text "Attempting to run Kraken CLI...";
            el_success "OCR completed via Kraken CLI";
            el_text_area "Recognized text" lf_text]
           (cli_calls E w "input.png" (cmd_ocr E w "m")
            ++ [call_exists (ws_output E w); call_read (ws_output E w)]))
   /\ lf_text <> crlf_text)
  /\ (let E := env_garbled 0 (Some "text") in
      let fs' := <[ws_output E w := File "text"]> (ws_fs E w "input.png" sample_gray) in
      cli_ends E w "input.png" sample_gray (cmd_ocr E w "m")
        (Exited 0 bad_bytes "err") fs'
      /\ fs' !! ws_output E w = Some (File "text")
      /\ utf8_valid "text" = true
      /\ env_decode E bad_bytes = None
      /\ AppStreamlit.run_ocr E 0 "m" w =
           (Ok tt,
            grown w fs'
              [el_text "Attempting to run Kraken CLI...";
               el_error "Unexpected error while running OCR: 'utf-8' codec can't decode byte"]
              (cli_calls E w "input.png" (cmd_ocr E w "m")))).
Proof.
  intros w. split.
  - intros E fs'.
    assert (Hfile : fs' !! ws_output E w = Some (File crlf_text))
      by apply lookup_insert_eq.
    split; [repeat split|]. split; [exact Hfile|]. split; [reflexivity|].
    split; [|discriminate].
    vm_compute. reflexivity.
  - intros E fs'.
    assert (Hfile : fs' !! ws_output E w = Some (File "text"))
      by apply lookup_insert_eq.
    split; [repeat split|]. split; [exact Hfile|]. split; [reflexivity|].
    split; [reflexivity|].
    vm_compute. reflexivity.
Qed.

(** C2, as amended. When the child process exits with status zero, what
    it wrote to stdout and stderr decodes as text, and no output file
    exists, the outcome is the "ran but no output file" error followed by
    the decoded stdout and stderr, whatever text they are; the run ends
    after the existence test, without any call of the fallback. *)
Theorem cli_ran_empty (E : Env) (w : World) (image : nat) (im : Image)
    (mp out err sout serr : string) :
  w_imgs w !! image = Some im ->
  env_decode E out = Some sout ->
  env_decode E err = Some serr ->
  (forall fs',
     cli_ends E w "input.png" im (cmd_ocr E w mp) (Exited 0 out err) fs' ->
     fs' !! ws_output E w = None ->
     AppStreamlit.run_ocr E image mp w =
       (Ok tt,
        grown w fs'
          [el_text "Attempting to run Kraken CLI...";
           el_error "Kraken CLI ran but no output file created.";
           el_write [sout]; el_write [serr]]
          (cli_calls E w "input.png" (cmd_ocr E w mp)
           ++ [call_exists (ws_output E w)])))
  /\ (forall fs',
       cli_ends E w "input_processed.png" im
         (cmd_pipeline E w "input_processed.png" mp) (Exited 0 out err) fs' ->
       fs' !! ws_output E w = None ->
       App.Inner.run_ocr E image mp w =
         (Ok None,
          grown w fs'
            [el_text "Attempting to run Kraken CLI...";
             el_error "Kraken CLI ran but did not produce an output file.";
             el_write [sout]; el_write [serr]]
            (cli_calls E w "input_processed.png"
               (cmd_pipeline E w "input_processed.png" mp)
             ++ [call_exists (ws_output E w)]))).
Proof.
  intros Him Hout Herr. split.
  all: intros fs' Hrun Hfile; start Him Hrun; by_fact Hout; by_fact Herr;
       change (0 =? 0) with true; step; by_fact Hfile; finish.
Qed.

Lemma cli_ran_empty_witness :
  let E := env_cli 0 None in
  let w := sample_world sample_gray in
  AppStreamlit.run_ocr E 0 "m" w =
    (Ok tt,
     grown w (ws_fs E w "input.png" sample_gray)
       [el_text "Attempting to run Kraken CLI...";
        el_error "Kraken CLI ran but no output file created.";
        el_write ["out"]; el_write ["err"]]
       (cli_calls E w "input.png" (cmd_ocr E w "m")
        ++ [call_exists (ws_output E w)])).
Proof.
  intros E w.
  destruct (cli_ran_empty E w 0 sample_gray "m" "out" "err" "out" "err"
              eq_refl eq_refl eq_refl) as [H _].
  apply (H _ (conj (conj eq_refl eq_refl) eq_refl)). vm_compute. reflexivity.
Defined.

(** C2 as stated fails. The process exits with status zero and leaves no
    output file, and what it wrote to stdout does not decode as text:
    the outcome is the "Unexpected error" message; the "ran but no output
    file" error is not drawn, neither stream is shown, and the existence
    of the output file is not even tested. *)
Lemma cli_ran_empty_counterexample :
  let E := env_garbled 0 None in
  let w := sample_world sample_gray in
  let fs' := ws_fs E w "input.png" sample_gray in
  cli_ends E w "input.png" sample_gray (cmd_ocr E w "m")
    (Exited 0 bad_bytes "err") fs'
  /\ fs' !! ws_output E w = None
  /\ env_decode E bad_bytes = None
  /\ AppStreamlit.run_ocr E 0 "m" w =
       (Ok tt,
        grown w fs'
          [el_text "Attempting to run Kraken CLI...";
           el_error "Unexpected error while running OCR: 'utf-8' codec can't decode byte"]
          (cli_calls E w "input.png" (cmd_ocr E w "m"))).
Proof.
  intros E w fs'.
  split; [repeat split|]. split; [vm_compute; reflexivity|].
  split; [reflexivity|].
  vm_compute. reflexivity.
Qed.

Lemma calls_since_explicit (w : World) ims fs' es cs :
  calls_since w (mkWorld ims fs' es (w_calls w ++ cs)) = cs.
Proof. unfold calls_since. proj. apply drop_app_length. Qed.

Lemma calls_since_none (w : World) ims fs' es :
  calls_since w (mkWorld ims fs' es (w_calls w)) = [].
Proof. unfold calls_since. proj. apply drop_all. Qed.

(** No call of the fallback in a trace that is given explicitly. *)
Ltac no_fallback :=
  intros [= <- <-]; rewrite <- ?app_assoc;
  rewrite ?calls_since_explicit, ?calls_since_none;
  discriminate.

(** Case analysis on the innermost answer the run is waiting for. *)
Ltac explore1 :=
  match goal with
  | |- context [match ?x with _ => _ end] =>
      lazymatch x with
      | context [match _ with _ => _ end] => fail
      | _ => destruct x eqn:?
      end
  end.

Ltac explore := repeat (step; explore1); step.

(** C3, as amended. When the child process ends with a non-zero status
    and what it wrote to stdout and stderr decodes as text, the outcome
    is the "CLI failed" error followed by the decoded stdout and stderr,
    and the run ends there. A call of the fallback is made only when
    the workspace was set up and starting the process failed because the
    executable was not found. *)
Theorem cli_failure_reports_streams (E : Env) (w : World) (image : nat)
    (im : Image) (mp out err sout serr : string) (code : Z) :
  w_imgs w !! image = Some im ->
  code <> 0 ->
  env_decode E out = Some sout ->
  env_decode E err = Some serr ->
  (forall fs',
     cli_ends E w "input.png" im (cmd_ocr E w mp) (Exited code out err) fs' ->
     AppStreamlit.run_ocr E image mp w =
       (Ok tt,
        grown w fs'
          [el_text "Attempting to run Kraken CLI...";
           el_error ("Kraken CLI failed: " ++ env_cpe_str E (cmd_ocr E w mp) code);
           el_write ["STDOUT:" ++ nl; sout];
           el_write ["STDERR:" ++ nl; serr]]
          (cli_calls E w "input.png" (cmd_ocr E w mp))))
  /\ (forall fs',
       cli_ends E w "input_processed.png" im
         (cmd_pipeline E w "input_processed.png" mp) (Exited code out err) fs' ->
       App.Inner.run_ocr E image mp w =
         (Ok None,
          grown w fs'
            [el_text "Attempting to run Kraken CLI...";
             el_error ("Kraken CLI failed: "
                       ++ env_cpe_str E (cmd_pipeline E w "input_processed.png" mp) code);
             el_write ["STDOUT:" ++ nl; sout];
             el_write ["STDERR:" ++ nl; serr]]
            (cli_calls E w "input_processed.png"
               (cmd_pipeline E w "input_processed.png" mp))))
  /\ (forall r w',
       AppStreamlit.run_ocr E image mp w = (r, w') ->
       existsb is_fallback_call (calls_since w w') = true ->
       exists msg fs',
         cli_ends E w "input.png" im (cmd_ocr E w mp) (SpawnNotFound msg) fs')
  /\ (forall r w',
       App.Inner.run_ocr E image mp w = (r, w') ->
       existsb is_fallback_call (calls_since w w') = true ->
       exists msg fs',
         cli_ends E w "input_processed.png" im
           (cmd_pipeline E w "input_processed.png" mp) (SpawnNotFound msg) fs').
Proof.
  intros Him Hcode Hout Herr.
  assert (Hnz : (code =? 0) = false) by by apply Z.eqb_neq.
  split; [|split; [|split]].
  1-2: intros fs' Hrun; start Him Hrun; by_fact Hout; by_fact Herr;
       by_fact Hnz; finish.
  all: intros r w'; unfold_script; step.
  all: destruct (env_mkdtemp_error E _) as [e0|] eqn:Hdir; step;
       [no_fallback|]; by_fact Him.
  all: destruct (env_save_error E im _ _) as [e0|] eqn:Hsave; step;
       [no_fallback|].
  all: destruct (env_run E _ _) as [ended fs'] eqn:Hrun; step.
  all: destruct ended as [msg|cls msg|code' out' err'|cls msg]; step;
       [intros _ _; exists msg, fs'; repeat split; assumption|no_fallback|
       |no_fallback].
  all: destruct (env_decode E out') as [so|]; step; [|no_fallback].
  all: destruct (env_decode E err') as [se|]; step; [|no_fallback].
  all: destruct (code' =? 0); step; [|no_fallback].
  all: destruct (fs' !! _) as [[|raw]|] eqn:Hfile; step; by_fact Hfile;
       [no_fallback| |no_fallback].
  all: destruct (utf8_valid raw); step; no_fallback.
Qed.

Lemma cli_failure_reports_streams_witness :
  let E := env_cli 2 None in
  let w := sample_world sample_gray in
  AppStreamlit.run_ocr E 0 "m" w =
    (Ok tt,
     grown w (ws_fs E w "input.png" sample_gray)
       [el_text "Attempting to run Kraken CLI...";
        el_error "Kraken CLI failed: Command returned non-zero exit status.";
        el_write ["STDOUT:" ++ nl; "out"];
        el_write ["STDERR:" ++ nl; "err"]]
       (cli_calls E w "input.png" (cmd_ocr E w "m"))).
Proof.
  intros E w.
  destruct (cli_failure_reports_streams E w 0 sample_gray "m" "out" "err"
              "out" "err" 2 eq_refl ltac:(discriminate) eq_refl eq_refl)
    as [H _].
  apply (H _ (conj (conj eq_refl eq_refl) eq_refl)).
Defined.

(** C3 as stated fails. The process ends with status 2 and what it wrote
    to stdout does not decode as text: the outcome is the "Unexpected
    error" message, and neither stdout nor stderr is shown. *)
Lemma cli_failure_reports_streams_counterexample :
  let E := env_garbled 2 None in
  let w := sample_world sample_gray in
  let fs' := ws_fs E w "input.png" sample_gray in
  cli_ends E w "input.png" sample_gray (cmd_ocr E w "m")
    (Exited 2 bad_bytes "err") fs'
  /\ env_decode E bad_bytes = None
  /\ AppStreamlit.run_ocr E 0 "m" w =
       (Ok tt,
        grown w fs'
          [el_text "Attempting to run Kraken CLI...";
           el_error "Unexpected error while running OCR: 'utf-8' codec can't decode byte"]
          (cli_calls E w "input.png" (cmd_ocr E w "m"))).
Proof.
  intros E w fs'.
  split; [repeat split|]. split; [reflexivity|].
  vm_compute. reflexivity.
Qed.

Lemma page_since_explicit (w : World) ims fs' es cs :
  page_since w (mkWorld ims fs' (w_page w ++ es) cs) = es.
Proof. unfold page_since. proj. apply drop_app_length. Qed.

(** Read the elements and calls a run added off its final world. *)
Ltac traces :=
  rewrite <- ?app_assoc; rewrite ?calls_since_explicit, ?page_since_explicit.

(** C4, as amended. When the workspace is set up and the executable
    cannot be located, the fallback is attempted once: the package is
    imported once. If the import and the loading of the model succeed,
    the image is passed as a one-element list to [rpred.recognize] first,
    and [rpred.rpred] is called exactly when [rpred.recognize] raised an
    instance of [Exception]; the result either of them returns is shown
    joined by newlines, item by item, when it is a list, and by its
    string form otherwise, which is the normalization of the
    specification for lists and for objects that are no sequences. If the
    import or the loading raises, neither recognizer is called. *)
Theorem fallback_recognize_then_rpred (E : Env) (w : World) (image : nat)
    (im : Image) (mp : string) :
  w_imgs w !! image = Some im ->
  (forall msg fs',
     cli_ends E w "input.png" im (cmd_ocr E w mp) (SpawnNotFound msg) fs' ->
     exists r w',
       AppStreamlit.run_ocr E image mp w = (r, w')
       /\ List.filter is_import_call (calls_since w w') = [call_import_kraken]
       /\ match env_import E, env_load_any_model E mp with
          | Ok _, Ok model =>
              let a := env_recognize E model [im] in
              calls_since w w' =
                (cli_calls E w "input.png" (cmd_ocr E w mp)
                 ++ fallback_calls mp model im
                 ++ match a with
                    | Raise _ => [call_rpred model [im]]
                    | _ => []
                    end)%list
              /\ forall preds,
                   a = Ok preds
                   \/ (exists e, a = Raise e) /\ env_rpred E model [im] = Ok preds ->
                   r = Ok tt
                   /\ page_since w w' =
                        [el_text "Attempting to run Kraken CLI...";
                         el_warning cli_missing_warning;
                         el_text "Running Kraken using Python API...";
                         el_success "OCR completed via Kraken Python API";
                         el_text_area "Recognized text" (preds_text preds)]
          | _, _ => existsb is_recognizer_call (calls_since w w') = false
          end)
  /\ (forall msg fs',
        cli_ends E w "input_processed.png" im
          (cmd_pipeline E w "input_processed.png" mp) (SpawnNotFound msg) fs' ->
        exists r w',
          App.Inner.run_ocr E image mp w = (r, w')
          /\ List.filter is_import_call (calls_since w w') = [call_import_kraken]
          /\ match env_import E, env_load_any_model E mp with
             | Ok _, Ok model =>
                 let a := env_recognize E model [im] in
                 calls_since w w' =
                   (cli_calls E w "input_processed.png"
                      (cmd_pipeline E w "input_processed.png" mp)
                    ++ fallback_calls mp model im
                    ++ match a with
                       | Raise _ => [call_rpred model [im]]
                       | _ => []
                       end)%list
                 /\ forall preds,
                      a = Ok preds
                      \/ (exists e, a = Raise e) /\ env_rpred E model [im] = Ok preds ->
                      r = Ok (Some (preds_text preds))
             | _, _ => existsb is_recognizer_call (calls_since w w') = false
             end)
  /\ (forall items, preds_text (PredList items) = spec_normalize (PredList items))
  /\ (forall o, preds_text (PredObj o) = spec_normalize (PredObj o)).
Proof.
  intros Him. split; [|split; [|split; reflexivity]]; intros msg fs' Hrun.
  all: start Him Hrun.
  all: destruct (env_import E) as [[]|e|c m]; step; by_fact Him;
       [|repeat eexists; traces; reflexivity..].
  all: destruct (env_load_any_model E mp) as [model|e|c m]; step; by_fact Him;
       [|repeat eexists; traces; reflexivity..].
  all: destruct (env_recognize E model [im]) as [p|ea|c m] eqn:Ha; step;
       by_fact Him;
       [|destruct (env_rpred E model [im]) as [p|eb|c m] eqn:Hb; step|].
  all: do 2 eexists; (split; [reflexivity|]); traces;
       (split; [reflexivity|]); (split; [reflexivity|]).
  all: intros preds [[= <-]|[[e [=]] [=]]]; subst; try split; traces;
       reflexivity.
Qed.

Lemma fallback_recognize_then_rpred_witness :
  let E := env_no_cli (Ok tt) (Raise (OtherError "TypeError" "bad call"))
             (Ok (PredList [{| py_str := "שלום" |}; {| py_str := "עולם" |}])) in
  let w := sample_world sample_gray in
  exists w',
    AppStreamlit.run_ocr E 0 DEFAULT_MODEL_PATH w = (Ok tt, w')
    /\ calls_since w w' =
         (cli_calls E w "input.png" (cmd_ocr E w DEFAULT_MODEL_PATH)
          ++ [call_import_kraken; call_load_any_model DEFAULT_MODEL_PATH;
              call_recognize sample_model [sample_gray];
              call_rpred sample_model [sample_gray]])%list
    /\ page_since w w' =
         [el_text "Attempting to run Kraken CLI...";
          el_warning cli_missing_warning;
          el_text "Running Kraken using Python API...";
          el_success "OCR completed via Kraken Python API";
          el_text_area "Recognized text" ("שלום" ++ nl ++ "עולם")].
Proof.
  intros E w.
  destruct (fallback_recognize_then_rpred E w 0 sample_gray DEFAULT_MODEL_PATH
              eq_refl) as [H _].
  destruct (H _ _ (conj (conj eq_refl eq_refl) eq_refl))
    as (r & w' & Hrun & _ & Hcalls & Hpage).
  destruct (Hpage (PredList [{| py_str := "שלום" |}; {| py_str := "עולם" |}]))
    as [Hr Hp].
  { right. split; [eexists|]; reflexivity. }
  exists w'. rewrite Hrun, Hr. split; [reflexivity|]. split; [exact Hcalls|].
  exact Hp.
Defined.

(** C4 as stated fails, in three ways. First, the executable is missing
    and so is the package: the import raises, the failure is reported,
    and the image is passed to neither recognizer. Second,
    [rpred.recognize] returns a tuple of two lines, a sequence that is no
    list: the text shown is the string form of the tuple, not its two
    elements joined by a newline. Third, [rpred.recognize] is interrupted
    by a [KeyboardInterrupt], which is no [Exception]: [rpred.rpred] is
    not called, and the interrupt leaves the handler. *)
Lemma fallback_always_recognizes_counterexample :
  let w := sample_world sample_gray in
  (let E := env_no_cli (Raise (OtherError "ModuleNotFoundError" "No module named 'kraken'"))
              (Ok (PredList [])) (Ok (PredList [])) in
   let w' := (AppStreamlit.run_ocr E 0 "m" w).2 in
   (exists msg fs',
      cli_ends E w "input.png" sample_gray (cmd_ocr E w "m") (SpawnNotFound msg) fs')
   /\ calls_since w w' =
        (cli_calls E w "input.png" (cmd_ocr E w "m") ++ [call_import_kraken])%list
   /\ existsb is_recognizer_call (calls_since w w') = false
   /\ page_since w w' =
        [el_text "Attempting to run Kraken CLI...";
         el_warning cli_missing_warning;
         el_error "Failed to use Kraken Python API: No module named 'kraken'";
         el_info guidance])
  /\ (let E := env_no_cli (Ok tt) (Ok sample_tuple) (Ok (PredList [])) in
      let w' := (AppStreamlit.run_ocr E 0 "m" w).2 in
      (exists msg fs',
         cli_ends E w "input.png" sample_gray (cmd_ocr E w "m") (SpawnNotFound msg) fs')
      /\ page_since w w' =
           [el_text "Attempting to run Kraken CLI...";
            el_warning cli_missing_warning;
            el_text "Running Kraken using Python API...";
            el_success "OCR completed via Kraken Python API";
            el_text_area "Recognized text" "('a', 'b')"]
      /\ spec_normalize sample_tuple = "a" ++ nl ++ "b"
      /\ "('a', 'b')" <> "a" ++ nl ++ "b")
  /\ (let E := env_no_cli (Ok tt) (Abort "KeyboardInterrupt" EmptyString)
                 (Ok (PredList [])) in
      let out := AppStreamlit.run_ocr E 0 "m" w in
      (exists msg fs',
         cli_ends E w "input.png" sample_gray (cmd_ocr E w "m") (SpawnNotFound msg) fs')
      /\ out.1 = Abort "KeyboardInterrupt" EmptyString
      /\ calls_since w out.2 =
           (cli_calls E w "input.png" (cmd_ocr E w "m")
            ++ fallback_calls "m" sample_model sample_gray)%list).
Proof.
  intros w. split; [|split].
  - intros E w'. split.
    + do 2 eexists. repeat split.
    + repeat split; vm_compute; reflexivity.
  - intros E w'. split.
    + do 2 eexists. repeat split.
    + split; [vm_compute; reflexivity|]. split; [reflexivity|discriminate].
  - intros E out. split.
    + do 2 eexists. repeat split.
    + split; vm_compute; reflexivity.
Qed.

(** C5. On the fallback path, when [rpred.recognize] and [rpred.rpred]
    both raise, the outcome is the "Failed to use Kraken Python API"
    error with the message of the exception, followed by the guidance
    about installing the package or the CLI; no text area is shown, and
    in the second script of app.py [result_text] stays [None], for which
    nothing is displayed. *)
Theorem fallback_unavailable (E : Env) (w : World) (image : nat)
    (im : Image) (mp : string) (model : Model) (ea eb : exn) :
  w_imgs w !! image = Some im ->
  env_import E = Ok tt ->
  env_load_any_model E mp = Ok model ->
  env_recognize E model [im] = Raise ea ->
  env_rpred E model [im] = Raise eb ->
  (forall msg fs',
     cli_ends E w "input.png" im (cmd_ocr E w mp) (SpawnNotFound msg) fs' ->
     AppStreamlit.run_ocr E image mp w =
       (Ok tt,
        grown w
          (lib_fs E (fallback_calls mp model im ++ [call_rpred model [im]]) fs')
          [el_text "Attempting to run Kraken CLI...";
           el_warning cli_missing_warning;
           el_text "Running Kraken using Python API...";
           el_error ("Failed to use Kraken Python API: " ++ exn_str eb);
           el_info guidance]
          (cli_calls E w "input.png" (cmd_ocr E w mp)
           ++ fallback_calls mp model im ++ [call_rpred model [im]])))
  /\ (forall msg fs',
        cli_ends E w "input_processed.png" im
          (cmd_pipeline E w "input_processed.png" mp) (SpawnNotFound msg) fs' ->
        App.Inner.run_ocr E image mp w =
          (Ok None,
           grown w
             (lib_fs E (fallback_calls mp model im ++ [call_rpred model [im]]) fs')
             [el_text "Attempting to run Kraken CLI...";
              el_warning cli_missing_warning_inner;
              el_text "Loading model and running Kraken Python API...";
              el_error ("Failed to use Kraken Python API: " ++ exn_str eb);
              el_info guidance_inner]
             (cli_calls E w "input_processed.png"
                (cmd_pipeline E w "input_processed.png" mp)
              ++ fallback_calls mp model im ++ [call_rpred model [im]])))
  /\ (forall msg fs',
        cli_ends E w "input.png" im (cmd_ocr E w mp) (SpawnNotFound msg) fs' ->
        existsb is_text_area
          (page_since w (AppStreamlit.run_ocr E image mp w).2) = false)
  /\ (forall w0, App.Inner.show_result None w0 = (Ok tt, w0)).
Proof.
  intros Him Himp Hload Ha Hb.
  assert (Hstreamlit : forall msg fs',
    cli_ends E w "input.png" im (cmd_ocr E w mp) (SpawnNotFound msg) fs' ->
    AppStreamlit.run_ocr E image mp w =
      (Ok tt,
       grown w
         (lib_fs E (fallback_calls mp model im ++ [call_rpred model [im]]) fs')
         [el_text "Attempting to run Kraken CLI...";
          el_warning cli_missing_warning;
          el_text "Running Kraken using Python API...";
          el_error ("Failed to use Kraken Python API: " ++ exn_str eb);
          el_info guidance]
         (cli_calls E w "input.png" (cmd_ocr E w mp)
          ++ fallback_calls mp model im ++ [call_rpred model [im]]))).
  { intros msg fs' Hrun; start Him Hrun;
    by_fact Himp; by_fact Hload; by_fact Him; by_fact Ha; by_fact Him;
    by_fact Hb; finish. }
  split; [exact Hstreamlit|]. split; [|split; [|done]].
  - intros msg fs' Hrun; start Him Hrun;
    by_fact Himp; by_fact Hload; by_fact Him; by_fact Ha; by_fact Him;
    by_fact Hb; finish.
  - intros msg fs' Hrun. rewrite (Hstreamlit msg fs' Hrun).
    unfold grown. proj. rewrite page_since_explicit. reflexivity.
Qed.

Lemma fallback_unavailable_witness :
  let E := env_no_cli (Ok tt) (Raise (OtherError "TypeError" "bad call"))
             (Raise (OtherError "AttributeError" "no attribute rpred")) in
  let w := sample_world sample_gray in
  AppStreamlit.run_ocr E 0 DEFAULT_MODEL_PATH w =
    (Ok tt,
     grown w (ws_fs E w "input.png" sample_gray)
       [el_text "Attempting to run Kraken CLI...";
        el_warning cli_missing_warning;
        el_text "Running Kraken using Python API...";
        el_error "Failed to use Kraken Python API: no attribute rpred";
        el_info guidance]
       (cli_calls E w "input.png" (cmd_ocr E w DEFAULT_MODEL_PATH)
        ++ fallback_calls DEFAULT_MODEL_PATH sample_model sample_gray
        ++ [call_rpred sample_model [sample_gray]])).
Proof.
  intros E w.
  destruct (fallback_unavailable E w 0 sample_gray DEFAULT_MODEL_PATH sample_model
              (OtherError "TypeError" "bad call")
              (OtherError "AttributeError" "no attribute rpred")
              eq_refl eq_refl eq_refl eq_refl eq_refl) as [H _].
  apply (H _ _ (conj (conj eq_refl eq_refl) eq_refl)).
Defined.

(** ** Relations every run preserves *)

Section Preserves.
Context (R : World -> World -> Prop) `{!PreOrder R}.

Lemma preserves_ret {A} (a : A) : preserves R (mret a).
Proof. intros w. reflexivity. Qed.

Lemma preserves_raise {A} (e : exn) : preserves R (raise (A:=A) e).
Proof. intros w. reflexivity. Qed.

Lemma preserves_abort {A} (cls msg : string) :
  preserves R (abort (A:=A) cls msg).
Proof. intros w. reflexivity. Qed.

Lemma preserves_lift {A} (r : result A) : preserves R (lift r).
Proof. intros w. reflexivity. Qed.

Lemma preserves_get_fs : preserves R get_fs.
Proof. intros w. reflexivity. Qed.

Lemma preserves_img_get (ref : nat) : preserves R (img_get ref).
Proof. intros w. unfold img_get. destruct (w_imgs w !! ref); reflexivity. Qed.

Lemma preserves_bind {A B} (m : M A) (f : A -> M B) :
  preserves R m -> (forall a, preserves R (f a)) -> preserves R (m ≫= f).
Proof.
  intros Hm Hf w. specialize (Hm w).
  unfold mbind, M_bind. destruct (m w) as [[a|e|c msg] w']; simpl in *.
  - etransitivity; [exact Hm|apply Hf].
  - exact Hm.
  - exact Hm.
Qed.

Lemma preserves_try {A} (m : M A) (h : exn -> M A) :
  preserves R m -> (forall e, preserves R (h e)) -> preserves R (try_except m h).
Proof.
  intros Hm Hh w. specialize (Hm w).
  unfold try_except. destruct (m w) as [[a|e|c msg] w']; simpl in *.
  - exact Hm.
  - etransitivity; [exact Hm|apply Hh].
  - exact Hm.
Qed.
End Preserves.

#[global] Instance fs_kept_preorder : PreOrder fs_kept.
Proof. split; [intros fs p; auto|intros a b c Hab Hbc p Hp; auto]. Qed.

#[global] Instance files_kept_preorder : PreOrder files_kept.
Proof.
  split; [intros w; unfold files_kept; reflexivity|].
  intros a b c Hab Hbc. unfold files_kept in *. by etransitivity.
Qed.

#[global] Instance log_grows_preorder (P : call -> bool) : PreOrder (log_grows P).
Proof.
  split.
  - intros w. split; [exists []|exists []; split; [|done]]; by rewrite app_nil_r.
  - intros a b c [[es1 H1] (cs1 & H2 & H3)] [[es2 H4] (cs2 & H5 & H6)].
    split; [exists (es1 ++ es2)%list|exists (cs1 ++ cs2)%list; split].
    + by rewrite H4, H1, app_assoc.
    + by rewrite H5, H2, app_assoc.
    + by rewrite forallb_app, H3, H6.
Qed.

Lemma fs_kept_insert (fs : gmap string node) (p : string) (n : node) :
  fs_kept fs (<[p := n]> fs).
Proof.
  intros q Hq. destruct (decide (p = q)) as [->|Hne].
  - rewrite lookup_insert_eq. eauto.
  - by rewrite lookup_insert_ne.
Qed.

Section FilesKept.
Context (E : Env).

Lemma files_kept_same_fs {A} (m : M A) :
  (forall w, w_fs (m w).2 = w_fs w) -> preserves files_kept m.
Proof. intros H w. unfold files_kept. rewrite H. reflexivity. Qed.

Lemma files_kept_emit e : preserves files_kept (emit e).
Proof. by apply files_kept_same_fs. Qed.

Lemma files_kept_record c : preserves files_kept (record c).
Proof. by apply files_kept_same_fs. Qed.

Lemma files_kept_img_new im : preserves files_kept (img_new im).
Proof. by apply files_kept_same_fs. Qed.

Lemma files_kept_mkdtemp : preserves files_kept (mkdtemp E).
Proof.
  intros w. cbv [mkdtemp record get_fs put_fs raise mbind M_bind mret M_ret].
  proj. destruct (env_mkdtemp_error E (w_fs w)); unfold files_kept; proj;
    [reflexivity|apply fs_kept_insert].
Qed.

Lemma files_kept_pil_save image path : preserves files_kept (pil_save E image path).
Proof.
  intros w.
  cbv [pil_save img_get record get_fs put_fs raise mbind M_bind mret M_ret].
  destruct (w_imgs w !! image) as [im|]; proj; [|reflexivity].
  destruct (env_save_error E im path (w_fs w)); unfold files_kept; proj;
    [reflexivity|apply fs_kept_insert].
Qed.

Lemma files_kept_subprocess cmd :
  child_keeps_files E -> preserves files_kept (subprocess_run E cmd).
Proof.
  intros HE w. specialize (HE cmd (w_fs w)).
  cbv [subprocess_run decode_captured record get_fs put_fs raise abort
       mbind M_bind mret M_ret]. proj.
  destruct (env_run E cmd (w_fs w)) as [ended fs']. explore; exact HE.
Qed.

Lemma files_kept_lib_call {A} c (r : result A) :
  lib_keeps_files E -> preserves files_kept (lib_call E c r).
Proof.
  intros HL w.
  cbv [lib_call lift record get_fs put_fs mbind M_bind mret M_ret]. proj.
  apply HL.
Qed.
End FilesKept.

Ltac unfold_derived :=
  cbv [AppStreamlit.run_ocr AppStreamlit.script
       App.Inner.run_ocr App.Inner.script App.Inner.show_result
       os_path_exists open_read import_kraken load_any_model
       rpred_recognize rpred_rpred img_get_all open_convert image_open
       st_image st_text_input st_file_uploader st_button
       pil_convert pil_point apply_threshold].

Ltac preserve1 prim :=
  lazymatch goal with
  | |- preserves _ (_ ≫= _) => apply preserves_bind; [exact _| |intros ?]
  | |- preserves _ (try_except _ _) => apply preserves_try; [exact _| |intros ?]
  | |- preserves _ (mret _) => apply preserves_ret; exact _
  | |- preserves _ (raise _) => apply preserves_raise; exact _
  | |- preserves _ (abort _ _) => apply preserves_abort; exact _
  | |- preserves _ (lift _) => apply preserves_lift; exact _
  | |- preserves _ get_fs => apply preserves_get_fs; exact _
  | |- preserves _ (img_get _) => apply preserves_img_get; exact _
  | |- preserves _ (match ?x with _ => _ end) => destruct x
  | |- preserves _ _ => prim
  end.

Ltac preserve prim := repeat preserve1 prim.

Ltac files_prim :=
  idtac;
  lazymatch goal with
  | |- preserves _ (emit _) => apply files_kept_emit
  | |- preserves _ (record _) => apply files_kept_record
  | |- preserves _ (img_new _) => apply files_kept_img_new
  | |- preserves _ (mkdtemp _) => apply files_kept_mkdtemp
  | |- preserves _ (pil_save _ _ _) => apply files_kept_pil_save
  | |- preserves _ (subprocess_run _ _) => apply files_kept_subprocess; assumption
  | |- preserves _ (lib_call _ _ _) => apply files_kept_lib_call; assumption
  end.

Section HandlersKeepFiles.
Context (E : Env) (HE : child_keeps_files E) (HL : lib_keeps_files E).

Lemma files_kept_streamlit image mp :
  preserves files_kept (AppStreamlit.run_ocr E image mp).
Proof. unfold_derived. preserve files_prim. Qed.

Lemma files_kept_inner image mp :
  preserves files_kept (App.Inner.run_ocr E image mp).
Proof. unfold_derived. preserve files_prim. Qed.
End HandlersKeepFiles.

Section LogGrows.
Context (P : call -> bool).





End LogGrows.



Section HandlersLog.
Context (E : Env).

End HandlersLog.

(** ** The temporary workspace *)

Section ChildFiles.
Context (E : Env) (HE : child_keeps_files E) (HL : lib_keeps_files E).
Context (w : World) (image : nat) (im : Image) (mp : string).
Context (Him : w_imgs w !! image = Some im).

(** The files the handler leaves hold those the child process left,
    [Hc], whatever the kraken package did afterwards. *)
Ltac kept_after Hc :=
  repeat (etransitivity; [|apply HL]);
  first [ reflexivity | exact Hc | apply fs_kept_insert
        | etransitivity; [|exact Hc]; apply fs_kept_insert ].

Ltac child_runs Hc :=
  match goal with
  | |- context [env_run E ?c ?f] =>
      pose proof (HE c f) as Hc;
      destruct (env_run E c f) as [ended fs']; cbn [snd] in Hc |- *
  end.

Lemma dir_kept_streamlit :
  env_mkdtemp_error E (w_fs w) = None ->
  fs_kept (<[ws_dir E w := Dir]> (w_fs w))
    (w_fs (AppStreamlit.run_ocr E image mp w).2).
Proof.
  intros Hdir. unfold_script. step. by_fact Hdir. by_fact Him.
  destruct (env_save_error E im _ _); step; [reflexivity|].
  child_runs Hc. explore; kept_after Hc.
Qed.

Lemma dir_kept_inner :
  env_mkdtemp_error E (w_fs w) = None ->
  fs_kept (<[ws_dir E w := Dir]> (w_fs w))
    (w_fs (App.Inner.run_ocr E image mp w).2).
Proof.
  intros Hdir. unfold_script. step. by_fact Hdir. by_fact Him.
  destruct (env_save_error E im _ _); step; [reflexivity|].
  child_runs Hc. explore; kept_after Hc.
Qed.

Lemma child_files_streamlit :
  workspace_ready E w "input.png" im ->
  fs_kept (env_run E (cmd_ocr E w mp) (ws_fs E w "input.png" im)).2
    (w_fs (AppStreamlit.run_ocr E image mp w).2).
Proof.
  intros [Hdir Hsave]. unfold_script. step.
  by_fact Hdir. by_fact Him. by_fact Hsave.
  child_runs Hc. explore; kept_after Hc.
Qed.

Lemma child_files_inner :
  workspace_ready E w "input_processed.png" im ->
  fs_kept (env_run E (cmd_pipeline E w "input_processed.png" mp)
             (ws_fs E w "input_processed.png" im)).2
    (w_fs (App.Inner.run_ocr E image mp w).2).
Proof.
  intros [Hdir Hsave]. unfold_script. step.
  by_fact Hdir. by_fact Him. by_fact Hsave.
  child_runs Hc. explore; kept_after Hc.
Qed.

Lemma workspace_kept_intro name cmd (w' : World) :
  files_kept w w' ->
  (env_mkdtemp_error E (w_fs w) = None ->
   fs_kept (<[ws_dir E w := Dir]> (w_fs w)) (w_fs w')) ->
  (workspace_ready E w name im ->
   fs_kept (env_run E cmd (ws_fs E w name im)).2 (w_fs w')) ->
  workspace_kept E w name im cmd w'.
Proof.
  intros Hall Hd Hchild. split; [exact Hall|]. split.
  - intros Hdir. apply (Hd Hdir). rewrite lookup_insert_eq. eauto.
  - intros Hready. split; [|by apply Hchild].
    apply (Hchild Hready), HE. unfold ws_fs. rewrite lookup_insert_eq. eauto.
Qed.
End ChildFiles.

(** C9. On every outcome of a run of the OCR handler, an exception that
    leaves it included, every path that existed before still exists when
    the handler is done; so does the temporary directory once it was
    created, and so do the image saved into it and every file the child
    process left once the image was saved: no step of the handler removes
    a path. Two things are assumed of what the handler calls: the child
    process removes no path, and no call into the kraken package removes
    a path. *)
Theorem workspace_not_deleted (E : Env) (w : World) (image : nat)
    (im : Image) (mp : string) :
  w_imgs w !! image = Some im ->
  child_keeps_files E ->
  lib_keeps_files E ->
  workspace_kept E w "input.png" im (cmd_ocr E w mp)
    (AppStreamlit.run_ocr E image mp w).2
  /\ workspace_kept E w "input_processed.png" im
       (cmd_pipeline E w "input_processed.png" mp)
       (App.Inner.run_ocr E image mp w).2.
Proof.
  intros Him HE HL. split; apply workspace_kept_intro; try done.
  - by apply files_kept_streamlit.
  - eapply dir_kept_streamlit; eassumption.
  - by apply child_files_streamlit.
  - by apply files_kept_inner.
  - eapply dir_kept_inner; eassumption.
  - by apply child_files_inner.
Qed.

Lemma sample_env_keeps_files ended output import load a b l rgb :
  child_keeps_files (sample_env ended output import load a b l rgb).
Proof.
  intros cmd fs. simpl.
  destruct output as [raw|]; [|reflexivity].
  destruct (cmd !! 3%nat) as [out|]; [apply fs_kept_insert|reflexivity].
Qed.

Lemma sample_env_lib_keeps_files ended output import load a b l rgb :
  lib_keeps_files (sample_env ended output import load a b l rgb).
Proof. intros c fs. reflexivity. Qed.

Lemma workspace_not_deleted_witness :
  let E := env_cli 0 (Some "text") in
  let w := sample_world sample_gray in
  is_Some (w_fs (AppStreamlit.run_ocr E 0 "m" w).2 !! ws_dir E w)
  /\ is_Some (w_fs (AppStreamlit.run_ocr E 0 "m" w).2
              !! path_join (ws_dir E w) "input.png").
Proof.
  intros E w.
  destruct (workspace_not_deleted E w 0 sample_gray "m"
              eq_refl (sample_env_keeps_files _ _ _ _ _ _ _ _)
              (sample_env_lib_keeps_files _ _ _ _ _ _ _ _))
    as [(_ & Hd & Hr) _].
  split; [exact (Hd eq_refl)|exact (proj1 (Hr (conj eq_refl eq_refl)))].
Defined.

(** ** Image acquisition *)








(** ** Further facts about the scripts *)

(** The second script of app.py shows and offers for download a text that
    is not empty, and nothing for an empty one. *)
Lemma show_result_text (w : World) (text : string) :
  App.Inner.show_result (Some text) w =
    (Ok tt,
     if String.eqb text EmptyString then w
     else grown w (w_fs w)
            [el_subheader "Recognized text";
             el_text_area "Recognized text" text;
             el_download_button "Download Text" text "recognized.txt" "text/plain"]
            []).
Proof.
  destruct text as [|c r]; [reflexivity|].
  cbv [App.Inner.show_result App.truthy emit mbind M_bind default grown].
  step. rewrite <- !app_assoc, app_nil_r. reflexivity.
Qed.

Example utf8_valid_hebrew : utf8_valid "הלל" = true.
Proof. reflexivity. Qed.

Example utf8_valid_rejects_overlong :
  utf8_valid (String (ascii_of_nat 192) (String (ascii_of_nat 128) EmptyString))
  = false.
Proof. reflexivity. Qed.

Example translate_newlines_mixed :
  translate_newlines ("a" ++ String CR ("b" ++ String CR (String LF "c")))
  = "a" ++ nl ++ "b" ++ nl ++ "c".
Proof. reflexivity. Qed.

Example path_join_workspace :
  path_join "/tmp/tmpk7" "output.txt" = "/tmp/tmpk7/output.txt".
Proof. reflexivity. Qed.

(** The second script of app.py, end to end: a grayscale upload, the
    child process writes the text, which is shown with its download. *)
Example inner_script_shows_download :
  let E := env_cli 0 (Some "הלל") in
  let w := (App.Inner.script E (sample_inputs (Some "png bytes") true)
              (mkWorld [] ∅ [] [])).2 in
  drop 18 (w_page w) =
    [el_subheader "Recognized text";
     el_text_area "Recognized text" "הלל";
     el_download_button "Download Text" "הלל" "recognized.txt" "text/plain"]
  /\ w_imgs w = [sample_gray; sample_gray; ImL 2 2 [0; 0; 0; 255]].
Proof. vm_compute. split; reflexivity. Qed.

(** * Further properties *)

(** ** More on the threshold preprocessor *)

Lemma thresholded_binarized (w : World) (image : nat) (im : Image) (t : Z) :
  w_imgs w !! image = Some im -> thresholded w image t = Some (binarized t im).
Proof. apply thresholded_eq. Qed.

Lemma binarized_data (t : Z) (im : Image) :
  exists wd ht d,
    convert_data ModeL im = ImL wd ht d
    /\ binarized t im = ImL wd ht (map (threshold_pixel t) d)
    /\ im_size im = (wd, ht, length d).
Proof.
  unfold binarized. destruct im as [wd ht d|wd ht d]; simpl.
  - exists wd, ht, d. done.
  - exists wd, ht, (map luma d). by rewrite length_map.
Qed.

Lemma threshold_pixel_le (c1 c2 v : Z) :
  0 <= v <= 255 -> c1 <= c2 -> threshold_pixel c2 v <= threshold_pixel c1 v.
Proof.
  intros Hv Hc. rewrite !threshold_pixel_in_range by done.
  destruct (v >? c2) eqn:H2; destruct (v >? c1) eqn:H1; lia.
Qed.

(** X1. Raising the cutoff never turns a black pixel white: for a
    well-formed image of either mode and cutoffs [c1 <= c2], every pixel
    of the image thresholded at [c2] is at most the pixel at the same
    place of the image thresholded at [c1]. *)
Theorem raising_cutoff_darkens (w : World) (image : nat) (im : Image)
    (c1 c2 : Z) :
  w_imgs w !! image = Some im ->
  wf_image im = true ->
  c1 <= c2 ->
  exists wd ht d1 d2,
    thresholded w image c1 = Some (ImL wd ht d1)
    /\ thresholded w image c2 = Some (ImL wd ht d2)
    /\ Forall2 (fun p1 p2 => p2 <= p1) d1 d2.
Proof.
  intros Him Hwf Hc.
  rewrite !(thresholded_binarized _ _ _ _ Him).
  destruct (binarized_data c1 im) as (wd & ht & d & Hgray & H1 & _).
  destruct (binarized_data c2 im) as (wd' & ht' & d' & Hgray' & H2 & _).
  rewrite Hgray in Hgray'. injection Hgray' as <- <- <-.
  rewrite H1, H2. do 4 eexists. split; [done|]. split; [done|].
  pose proof (convert_L_u8 im wd ht d Hwf Hgray) as Hd.
  clear - Hd Hc.
  induction Hd as [|v d Hv _ IH]; simpl; [constructor|].
  constructor; [by apply threshold_pixel_le|exact IH].
Qed.

Lemma raising_cutoff_darkens_witness :
  exists wd ht d1 d2,
    thresholded (sample_world sample_gray) 0 100 = Some (ImL wd ht d1)
    /\ thresholded (sample_world sample_gray) 0 128 = Some (ImL wd ht d2)
    /\ Forall2 (fun p1 p2 => p2 <= p1) d1 d2.
Proof.
  apply (raising_cutoff_darkens (sample_world sample_gray) 0 sample_gray 100 128);
    [reflexivity | reflexivity | lia].
Defined.

(** X2. [apply_threshold] keeps the size: the image it returns has the
    width, the height and the number of pixels of its input, whatever the
    mode of the input and the cutoff, and each of its bytes is in
    0..255. *)
Theorem threshold_keeps_size (w : World) (image : nat) (im : Image) (thresh : Z) :
  w_imgs w !! image = Some im ->
  exists out,
    thresholded w image thresh = Some out
    /\ im_size out = im_size im
    /\ wf_image out = true.
Proof.
  intros Him. rewrite (thresholded_binarized _ _ _ _ Him).
  destruct (binarized_data thresh im) as (wd & ht & d & _ & -> & ->).
  eexists. split; [done|]. split; [simpl; by rewrite length_map|].
  simpl. apply forallb_forall. intros p [v [<- _]]%in_map_iff.
  apply is_u8_spec. destruct (threshold_pixel_binary thresh v) as [-> | ->]; lia.
Qed.

Lemma threshold_keeps_size_witness :
  exists out,
    thresholded (sample_world sample_rgb) 0 128 = Some out
    /\ im_size out = (2%nat, 1%nat, 2%nat)
    /\ wf_image out = true.
Proof.
  apply (threshold_keeps_size (sample_world sample_rgb) 0 sample_rgb 128 eq_refl).
Defined.

Lemma binarized_gray (c : Z) (wd ht : nat) (l : list Z) :
  binarized c (ImL wd ht l) = ImL wd ht (map (threshold_pixel c) l).
Proof. reflexivity. Qed.

Lemma threshold_pixel_of_binary (c p : Z) :
  p = 0 \/ p = 255 ->
  threshold_pixel c p = if c <? 0 then 255 else if c <? 255 then p else 0.
Proof.
  intros Hp. rewrite threshold_pixel_in_range by lia.
  destruct (c <? 0) eqn:H0; [apply Z.ltb_lt in H0|apply Z.ltb_ge in H0].
  - destruct (p >? c) eqn:H; [done|]. rewrite Z.gtb_ltb, Z.ltb_ge in H. lia.
  - destruct (c <? 255) eqn:H1; [apply Z.ltb_lt in H1|apply Z.ltb_ge in H1];
      destruct (p >? c) eqn:H; try apply Z.gtb_lt in H;
      try (rewrite Z.gtb_ltb, Z.ltb_ge in H); lia.
Qed.

(** X3. Thresholding an image [apply_threshold] returned, with a second
    cutoff: a cutoff in 0..254 gives the same image again, a cutoff of 255
    or more the all-black image, a negative cutoff the all-white image,
    whatever the first cutoff and the input were. *)
Theorem threshold_after_threshold (w : World) (image : nat) (im : Image)
    (c1 c2 : Z) :
  w_imgs w !! image = Some im ->
  exists bw w' out,
    apply_threshold image c1 w = (Ok bw, w')
    /\ thresholded w image c1 = Some out
    /\ thresholded w' bw c2 =
         Some (if c2 <? 0 then solid 255 out
               else if c2 <? 255 then out
               else solid 0 out).
Proof.
  intros Him.
  pose proof (apply_threshold_run w image im c1 Him) as Hrun. cbv zeta in Hrun.
  fold (binarized c1 im) in Hrun.
  do 3 eexists. split; [exact Hrun|].
  split; [by apply thresholded_binarized|].
  erewrite thresholded_binarized; last first.
  { proj. rewrite lookup_app_r by lia.
    replace (S (length (w_imgs w)) - length (w_imgs w))%nat with 1%nat by lia.
    reflexivity. }
  f_equal.
  destruct (binarized_data c1 im) as (wd & ht & d & _ & -> & _).
  assert (Hd : Forall (fun p => p = 0 \/ p = 255) (map (threshold_pixel c1) d)).
  { apply Forall_fmap, Forall_forall. intros v _. apply threshold_pixel_binary. }
  generalize dependent (map (threshold_pixel c1) d). intros l Hl.
  rewrite binarized_gray.
  replace (map (threshold_pixel c2) l)
    with (map (fun p => if c2 <? 0 then 255 else if c2 <? 255 then p else 0) l).
  - destruct (c2 <? 0); [done|]. destruct (c2 <? 255); [|done].
    simpl. by rewrite map_id.
  - induction Hl as [|p l Hp _ IH]; simpl; [done|].
    by rewrite IH, (threshold_pixel_of_binary c2 p Hp).
Qed.

Lemma threshold_after_threshold_witness :
  exists bw w' out,
    apply_threshold 0 100 (sample_world sample_gray) = (Ok bw, w')
    /\ thresholded (sample_world sample_gray) 0 100 = Some out
    /\ thresholded w' bw 255 = Some (solid 0 out).
Proof.
  apply (threshold_after_threshold (sample_world sample_gray) 0 sample_gray 100 255
           eq_refl).
Defined.

(** ** More on the OCR invoker *)

(** Case analysis on every answer still open, keeping the image [H]. *)
Ltac explore_keeping H := repeat (step; by_fact H; explore1); step; by_fact H.

Ltac leaf := repeat eexists; traces; reflexivity.

(** Run the handler up to the start of the child process, for the image
    [Him] and the workspace [Hready]. *)
Ltac setup Him Hready :=
  unfold_script;
  let Hdir := fresh "Hdir" in
  let Hsave := fresh "Hsave" in
  destruct Hready as [Hdir Hsave];
  step; by_fact Hdir; by_fact Him; by_fact Hsave.

(** X4. Once the workspace is set up, no instance of [Exception] leaves
    the handler of app_streamlit.py or the handler of the second script
    of app.py, whatever the child process and the kraken package do: the
    handler ends normally, or with what the environment raised outside
    [Exception]. A run that ends normally has drawn exactly one
    outcome, a success or an error. app_streamlit.py draws the text area
    exactly when it reports success; the second script of app.py draws
    none in its handler and leaves a text exactly when it reports
    success. *)
Theorem handler_draws_one_outcome (E : Env) (w : World) (image : nat)
    (im : Image) (mp : string) :
  w_imgs w !! image = Some im ->
  (workspace_ready E w "input.png" im ->
   exists r w',
     AppStreamlit.run_ocr E image mp w = (r, w')
     /\ (forall e, r <> Raise e)
     /\ (r = Ok tt ->
         length (List.filter is_outcome (page_since w w')) = 1%nat
         /\ existsb is_text_area (page_since w w')
            = existsb is_success (page_since w w')))
  /\ (workspace_ready E w "input_processed.png" im ->
      exists r w',
        App.Inner.run_ocr E image mp w = (r, w')
        /\ (forall e, r <> Raise e)
        /\ (forall result_text,
              r = Ok result_text ->
              length (List.filter is_outcome (page_since w w')) = 1%nat
              /\ existsb is_text_area (page_since w w') = false
              /\ existsb is_success (page_since w w')
                 = match result_text with Some _ => true | None => false end)).
Proof.
  intros Him. split; intros Hready.
  all: setup Him Hready;
       destruct (env_run E _ _) as [ended fs']; explore_keeping Him.
  all: do 2 eexists; (split; [reflexivity|]); (split; [discriminate|]).
  all: try discriminate.
  all: intros; simplify_eq; traces; repeat split; reflexivity.
Qed.

Lemma handler_draws_one_outcome_witness :
  exists r w',
    AppStreamlit.run_ocr (env_cli 3 None) 0 "m" (sample_world sample_gray) = (r, w')
    /\ (forall e, r <> Raise e)
    /\ (r = Ok tt ->
        length (List.filter is_outcome (page_since (sample_world sample_gray) w'))
        = 1%nat).
Proof.
  destruct (handler_draws_one_outcome (env_cli 3 None) (sample_world sample_gray) 0
              sample_gray "m" eq_refl) as [H _].
  destruct (H (conj eq_refl eq_refl)) as (r & w' & Hrun & Hno & Hone).
  exists r, w'. split; [exact Hrun|]. split; [exact Hno|].
  intros Hr. exact (proj1 (Hone Hr)).
Defined.

(** X5. Nothing is retried: once the workspace is set up, every run of
    the handler has created one directory, saved the image once and
    started the child process once, in this order and before anything
    else, whatever happens afterwards. *)
Theorem handler_starts_one_process (E : Env) (w : World) (image : nat)
    (im : Image) (mp : string) :
  w_imgs w !! image = Some im ->
  (workspace_ready E w "input.png" im ->
   exists r w' rest,
     AppStreamlit.run_ocr E image mp w = (r, w')
     /\ calls_since w w'
        = (cli_calls E w "input.png" (cmd_ocr E w mp) ++ rest)%list
     /\ existsb is_workspace_call rest = false)
  /\ (workspace_ready E w "input_processed.png" im ->
      exists r w' rest,
        App.Inner.run_ocr E image mp w = (r, w')
        /\ calls_since w w'
           = (cli_calls E w "input_processed.png"
                (cmd_pipeline E w "input_processed.png" mp) ++ rest)%list
        /\ existsb is_workspace_call rest = false).
Proof.
  intros Him. split; intros Hready.
  all: setup Him Hready;
       destruct (env_run E _ _) as [ended fs']; explore_keeping Him.
  all: leaf.
Qed.

Lemma handler_starts_one_process_witness :
  exists r w' rest,
    AppStreamlit.run_ocr (env_cli 0 (Some "text")) 0 "m" (sample_world sample_gray)
    = (r, w')
    /\ calls_since (sample_world sample_gray) w'
       = (cli_calls (env_cli 0 (Some "text")) (sample_world sample_gray) "input.png"
            (cmd_ocr (env_cli 0 (Some "text")) (sample_world sample_gray) "m")
          ++ rest)%list
    /\ existsb is_workspace_call rest = false.
Proof.
  destruct (handler_starts_one_process (env_cli 0 (Some "text"))
              (sample_world sample_gray) 0 sample_gray "m" eq_refl) as [H _].
  exact (H (conj eq_refl eq_refl)).
Defined.

(** X6. When starting the child process fails for a reason other than a
    missing executable (any other [OSError]), the outcome is the
    "Unexpected error" message with the text of the exception; nothing is
    read, the fallback is not tried, and no stdout or stderr is shown. *)
Theorem spawn_error_is_unexpected (E : Env) (w : World) (image : nat)
    (im : Image) (mp cls msg : string) :
  w_imgs w !! image = Some im ->
  (forall fs',
     cli_ends E w "input.png" im (cmd_ocr E w mp) (SpawnFailed cls msg) fs' ->
     AppStreamlit.run_ocr E image mp w =
       (Ok tt,
        grown w fs'
          [el_text "Attempting to run Kraken CLI...";
           el_error ("Unexpected error while running OCR: " ++ msg)]
          (cli_calls E w "input.png" (cmd_ocr E w mp))))
  /\ (forall fs',
        cli_ends E w "input_processed.png" im
          (cmd_pipeline E w "input_processed.png" mp) (SpawnFailed cls msg) fs' ->
        App.Inner.run_ocr E image mp w =
          (Ok None,
           grown w fs'
             [el_text "Attempting to run Kraken CLI...";
              el_error ("Unexpected error while running OCR: " ++ msg)]
             (cli_calls E w "input_processed.png"
                (cmd_pipeline E w "input_processed.png" mp)))).
Proof.
  intros Him. split.
  all: intros fs' Hrun; start Him Hrun; finish.
Qed.

Lemma spawn_error_is_unexpected_witness :
  let E := sample_env (SpawnFailed "PermissionError" "[Errno 13] Permission denied: 'kraken'")
             None (Ok tt) (Ok sample_model) (Ok (PredList [])) (Ok (PredList []))
             (Ok sample_gray) (Ok sample_rgb) in
  let w := sample_world sample_gray in
  AppStreamlit.run_ocr E 0 "m" w =
    (Ok tt,
     grown w (ws_fs E w "input.png" sample_gray)
       [el_text "Attempting to run Kraken CLI...";
        el_error "Unexpected error while running OCR: [Errno 13] Permission denied: 'kraken'"]
       (cli_calls E w "input.png" (cmd_ocr E w "m"))).
Proof.
  intros E w.
  destruct (spawn_error_is_unexpected E w 0 sample_gray "m" "PermissionError"
              "[Errno 13] Permission denied: 'kraken'" eq_refl) as [H _].
  apply (H _ (conj (conj eq_refl eq_refl) eq_refl)).
Defined.

(** X7. When the child process exits with status zero, what it wrote to
    its pipes decodes, and the output path exists but cannot be read as
    UTF-8 text, because it is a directory or because its bytes are not
    well-formed UTF-8, the outcome is the "Unexpected error" message with
    the text of the exception [open] or [read] raised: no success is
    reported, no text is shown and the fallback is not tried. *)
Theorem unreadable_output_is_unexpected (E : Env) (w : World) (image : nat)
    (im : Image) (mp out err sout serr : string) (n : node) :
  w_imgs w !! image = Some im ->
  env_decode E out = Some sout ->
  env_decode E err = Some serr ->
  match n with Dir => True | File raw => utf8_valid raw = false end ->
  let msg :=
    match n with
    | Dir => env_oserror_str E "IsADirectoryError" (ws_output E w)
    | File raw => env_utf8_error E raw
    end in
  (forall fs',
     cli_ends E w "input.png" im (cmd_ocr E w mp) (Exited 0 out err) fs' ->
     fs' !! ws_output E w = Some n ->
     AppStreamlit.run_ocr E image mp w =
       (Ok tt,
        grown w fs'
          [el_text "Attempting to run Kraken CLI...";
           el_error ("Unexpected error while running OCR: " ++ msg)]
          (cli_calls E w "input.png" (cmd_ocr E w mp)
           ++ [call_exists (ws_output E w); call_read (ws_output E w)])))
  /\ (forall fs',
        cli_ends E w "input_processed.png" im
          (cmd_pipeline E w "input_processed.png" mp) (Exited 0 out err) fs' ->
        fs' !! ws_output E w = Some n ->
        App.Inner.run_ocr E image mp w =
          (Ok None,
           grown w fs'
             [el_text "Attempting to run Kraken CLI...";
              el_error ("Unexpected error while running OCR: " ++ msg)]
             (cli_calls E w "input_processed.png"
                (cmd_pipeline E w "input_processed.png" mp)
              ++ [call_exists (ws_output E w); call_read (ws_output E w)]))).
Proof.
  intros Him Hout Herr Hn msg. split.
  all: intros fs' Hrun Hfile; start Him Hrun; by_fact Hout; by_fact Herr;
       change (0 =? 0) with true; step; by_fact Hfile.
  all: destruct n as [|raw]; step; [|by_fact Hn]; finish.
Qed.

Lemma unreadable_output_is_unexpected_witness :
  let E := env_cli 0 (Some bad_bytes) in
  let w := sample_world sample_gray in
  AppStreamlit.run_ocr E 0 "m" w =
    (Ok tt,
     grown w (<[ws_output E w := File bad_bytes]> (ws_fs E w "input.png" sample_gray))
       [el_text "Attempting to run Kraken CLI...";
        el_error "Unexpected error while running OCR: 'utf-8' codec can't decode byte"]
       (cli_calls E w "input.png" (cmd_ocr E w "m")
        ++ [call_exists (ws_output E w); call_read (ws_output E w)])).
Proof.
  intros E w.
  destruct (unreadable_output_is_unexpected E w 0 sample_gray "m" "out" "err"
              "out" "err" (File bad_bytes) eq_refl eq_refl eq_refl eq_refl)
    as [H _].
  apply (H _ (conj (conj eq_refl eq_refl) eq_refl)). apply lookup_insert_eq.
Defined.

(** X8. On the fallback path, when importing the kraken package raises,
    or the import succeeds and loading the model raises, the outcome is
    the "Failed to use Kraken Python API" error with the text of that
    exception, followed by the guidance; the progress line of the
    fallback is drawn only after a successful import. *)
Theorem fallback_setup_failure (E : Env) (w : World) (image : nat)
    (im : Image) (mp msg : string) (e : exn) (fs' : gmap string node) :
  w_imgs w !! image = Some im ->
  cli_ends E w "input.png" im (cmd_ocr E w mp) (SpawnNotFound msg) fs' ->
  (env_import E = Raise e ->
   AppStreamlit.run_ocr E image mp w =
     (Ok tt,
      grown w (lib_fs E [call_import_kraken] fs')
        [el_text "Attempting to run Kraken CLI...";
         el_warning cli_missing_warning;
         el_error ("Failed to use Kraken Python API: " ++ exn_str e);
         el_info guidance]
        (cli_calls E w "input.png" (cmd_ocr E w mp) ++ [call_import_kraken])))
  /\ (env_import E = Ok tt -> env_load_any_model E mp = Raise e ->
      AppStreamlit.run_ocr E image mp w =
        (Ok tt,
         grown w (lib_fs E [call_import_kraken; call_load_any_model mp] fs')
           [el_text "Attempting to run Kraken CLI...";
            el_warning cli_missing_warning;
            el_text "Running Kraken using Python API...";
            el_error ("Failed to use Kraken Python API: " ++ exn_str e);
            el_info guidance]
           (cli_calls E w "input.png" (cmd_ocr E w mp)
            ++ [call_import_kraken; call_load_any_model mp]))).
Proof.
  intros Him Hrun. split.
  - intros Himp. start Him Hrun. by_fact Himp. finish.
  - intros Himp Hload. start Him Hrun. by_fact Himp. by_fact Hload. finish.
Qed.

Lemma fallback_setup_failure_witness :
  let E := sample_env (SpawnNotFound "not found") None (Ok tt)
             (Raise (OtherError "FileNotFoundError" "no such model"))
             (Ok (PredList [])) (Ok (PredList [])) (Ok sample_gray) (Ok sample_rgb) in
  let w := sample_world sample_gray in
  AppStreamlit.run_ocr E 0 "m" w =
    (Ok tt,
     grown w (ws_fs E w "input.png" sample_gray)
       [el_text "Attempting to run Kraken CLI...";
        el_warning cli_missing_warning;
        el_text "Running Kraken using Python API...";
        el_error "Failed to use Kraken Python API: no such model";
        el_info guidance]
       (cli_calls E w "input.png" (cmd_ocr E w "m")
        ++ [call_import_kraken; call_load_any_model "m"])).
Proof.
  intros E w.
  destruct (fallback_setup_failure E w 0 sample_gray "m" "not found"
              (OtherError "FileNotFoundError" "no such model") _ eq_refl
              (conj (conj eq_refl eq_refl) eq_refl))
    as [_ H].
  apply (H eq_refl eq_refl).
Defined.

Lemma append_not_self (a b : string) : b <> EmptyString -> a ++ b <> a.
Proof.
  intros Hb H. apply Hb.
  apply (String.app_inj a). rewrite H.
  clear. induction a as [|c a IH]; [reflexivity|].
  change (String c a = String c (a ++ EmptyString)). by rewrite <- IH.
Qed.

Lemma path_join_relative (d name : string) :
  starts_with_sep name = false ->
  exists sep, (sep = EmptyString \/ sep = "/") /\ forall other,
    starts_with_sep other = false ->
    path_join d other = d ++ sep ++ other.
Proof.
  intros _. unfold path_join.
  destruct (String.eqb d EmptyString || ends_with_sep d).
  - exists EmptyString. split; [by left|]. by intros other ->.
  - exists "/". split; [by right|]. by intros other ->.
Qed.

(** X10. The paths of a workspace are distinct: the output path is not
    the path of the saved image and neither is the directory itself, for
    every directory name. So saving the image does not create the output
    file: if no output path existed before and the child process exits
    with status zero without writing, and what it wrote to its pipes
    decodes, the outcome is the "ran but no output file" error. *)
Theorem saved_image_is_not_output (E : Env) (w : World) (image : nat)
    (im : Image) (mp out err sout serr : string) :
  w_imgs w !! image = Some im ->
  w_fs w !! ws_output E w = None ->
  env_decode E out = Some sout ->
  env_decode E err = Some serr ->
  path_join (ws_dir E w) "input.png" <> ws_output E w
  /\ path_join (ws_dir E w) "input_processed.png" <> ws_output E w
  /\ ws_dir E w <> ws_output E w
  /\ (cli_ends E w "input.png" im (cmd_ocr E w mp) (Exited 0 out err)
        (ws_fs E w "input.png" im) ->
      AppStreamlit.run_ocr E image mp w =
        (Ok tt,
         grown w (ws_fs E w "input.png" im)
           [el_text "Attempting to run Kraken CLI...";
            el_error "Kraken CLI ran but no output file created.";
            el_write [sout]; el_write [serr]]
           (cli_calls E w "input.png" (cmd_ocr E w mp)
            ++ [call_exists (ws_output E w)]))).
Proof.
  intros Him Hnone Hout Herr.
  assert (H1 : path_join (ws_dir E w) "input.png" <> ws_output E w).
  { unfold ws_output.
    destruct (path_join_relative (ws_dir E w) "input.png" eq_refl)
      as (sep & Hcase & Hsep).
    rewrite !Hsep by reflexivity.
    intros H%(String.app_inj (ws_dir E w)).
    destruct Hcase as [-> | ->]; discriminate. }
  assert (H2 : path_join (ws_dir E w) "input_processed.png" <> ws_output E w).
  { unfold ws_output.
    destruct (path_join_relative (ws_dir E w) "output.txt" eq_refl)
      as (sep & Hcase & Hsep).
    rewrite !Hsep by reflexivity.
    intros H%(String.app_inj (ws_dir E w)).
    destruct Hcase as [-> | ->]; discriminate. }
  assert (H3 : ws_dir E w <> ws_output E w).
  { unfold ws_output.
    destruct (path_join_relative (ws_dir E w) "output.txt" eq_refl)
      as (sep & Hcase & Hsep).
    rewrite Hsep by reflexivity. intros H. symmetry in H. revert H.
    apply append_not_self. destruct Hcase as [-> | ->]; discriminate. }
  repeat split; [exact H1|exact H2|exact H3|].
  intros Hrun.
  assert (Hfile : ws_fs E w "input.png" im !! ws_output E w = None).
  { unfold ws_fs. rewrite !lookup_insert_ne by done. exact Hnone. }
  start Him Hrun. by_fact Hout. by_fact Herr.
  change (0 =? 0) with true; step. by_fact Hfile. finish.
Qed.

Lemma saved_image_is_not_output_witness :
  let E := env_cli 0 None in
  let w := sample_world sample_gray in
  AppStreamlit.run_ocr E 0 "m" w =
    (Ok tt,
     grown w (ws_fs E w "input.png" sample_gray)
       [el_text "Attempting to run Kraken CLI...";
        el_error "Kraken CLI ran but no output file created.";
        el_write ["out"]; el_write ["err"]]
       (cli_calls E w "input.png" (cmd_ocr E w "m")
        ++ [call_exists (ws_output E w)])).
Proof.
  intros E w.
  destruct (saved_image_is_not_output E w 0 sample_gray "m" "out" "err"
              "out" "err" eq_refl eq_refl eq_refl eq_refl) as (_ & _ & _ & H).
  apply (H (conj (conj eq_refl eq_refl) eq_refl)).
Defined.

Lemma translate_newlines_bound (n : nat) :
  forall s, (String.length s <= n)%nat ->
    has_cr (translate_newlines s) = false
    /\ (String.length (translate_newlines s) <= String.length s)%nat.
Proof.
  induction n as [|n IH]; intros [|c r] Hlen; simpl in *;
    [split; [done|lia] | lia | split; [done|lia] | ].
  destruct (Ascii.eqb c CR) eqn:Hc.
  - destruct r as [|c' r']; simpl in *; [split; [done|lia]|].
    destruct (Ascii.eqb c' LF).
    + destruct (IH r') as [H1 H2]; [lia|]. split; [exact H1|lia].
    + destruct (IH (String c' r')) as [H1 H2]; [simpl; lia|].
      split; [exact H1|simpl in H2; lia].
  - destruct (IH r) as [H1 H2]; [lia|]. simpl. rewrite Hc, H1. split; [done|lia].
Qed.

(** X11. The text reported on the CLI path, when the child process
    exits with status zero, what it wrote to its pipes decodes and the
    output file is UTF-8, never holds a carriage return, and it is never
    longer than the contents of the output file. *)
Theorem reported_text_has_no_cr (E : Env) (w : World) (image : nat)
    (im : Image) (mp out err sout serr T : string) (fs' : gmap string node) :
  w_imgs w !! image = Some im ->
  env_decode E out = Some sout ->
  env_decode E err = Some serr ->
  utf8_valid T = true ->
  cli_ends E w "input.png" im (cmd_ocr E w mp) (Exited 0 out err) fs' ->
  fs' !! ws_output E w = Some (File T) ->
  exists text w',
    AppStreamlit.run_ocr E image mp w = (Ok tt, w')
    /\ page_since w w' =
         [el_text "Attempting to run Kraken CLI...";
          el_success "OCR completed via Kraken CLI";
          el_text_area "Recognized text" text]
    /\ has_cr text = false
    /\ (String.length text <= String.length T)%nat.
Proof.
  intros Him Hout Herr HT Hrun Hfile.
  exists (translate_newlines T). eexists. split.
  - start Him Hrun. by_fact Hout. by_fact Herr.
    change (0 =? 0) with true; step; by_fact Hfile.
    by_fact HT. reflexivity.
  - traces. split; [reflexivity|].
    apply (translate_newlines_bound (String.length T)). lia.
Qed.

Lemma reported_text_has_no_cr_witness :
  let E := env_cli 0 (Some crlf_text) in
  let w := sample_world sample_gray in
  exists text w',
    AppStreamlit.run_ocr E 0 "m" w = (Ok tt, w')
    /\ page_since w w' =
         [el_text "Attempting to run Kraken CLI...";
          el_success "OCR completed via Kraken CLI";
          el_text_area "Recognized text" text]
    /\ has_cr text = false
    /\ (String.length text <= String.length crlf_text)%nat.
Proof.
  intros E w.
  apply (reported_text_has_no_cr E w 0 sample_gray "m" "out" "err" "out" "err"
           crlf_text
           (<[ws_output E w := File crlf_text]> (ws_fs E w "input.png" sample_gray))
           eq_refl eq_refl eq_refl eq_refl (conj (conj eq_refl eq_refl) eq_refl)).
  apply lookup_insert_eq.
Defined.


(** ** The scripts as a whole *)

(** The scripts with their handlers left folded; a world that is given
    explicitly is projected at once. *)
Ltac unfold_scripts_p :=
  cbv [AppStreamlit.script App.Inner.script App.Inner.show_result App.truthy
       st_text_input st_file_uploader st_image st_button open_convert image_open
       apply_threshold pil_convert pil_point
       emit record lift img_new img_get try_except mbind M_bind mret M_ret
       grown w_imgs w_fs w_page w_calls fst snd].

(** The object just created is the last of the store. *)
Ltac newest := repeat (rewrite list_lookup_middle by reflexivity; step).

Ltac finish_world :=
  unfold grown, inner_started, inner_head, inner_preview, page_head, sidebar_help,
    binarized;
  rewrite <- ?app_assoc, ?app_nil_r; reflexivity.

(** The runs of the handlers the scripts below go through, from any
    world. *)
Lemma streamlit_handler_cli_success (E : Env) (w : World) (image : nat)
    (im : Image) (mp out err sout serr T : string) (fs' : gmap string node) :
  w_imgs w !! image = Some im ->
  env_decode E out = Some sout ->
  env_decode E err = Some serr ->
  utf8_valid T = true ->
  cli_ends E w "input.png" im (cmd_ocr E w mp) (Exited 0 out err) fs' ->
  fs' !! ws_output E w = Some (File T) ->
  AppStreamlit.run_ocr E image mp w =
    (Ok tt,
     grown w fs'
       [el_text "Attempting to run Kraken CLI...";
        el_success "OCR completed via Kraken CLI";
        el_text_area "Recognized text" (translate_newlines T)]
       (cli_calls E w "input.png" (cmd_ocr E w mp)
        ++ [call_exists (ws_output E w); call_read (ws_output E w)])).
Proof.
  intros Him Hout Herr HT Hrun Hfile.
  start Him Hrun. by_fact Hout. by_fact Herr.
  change (0 =? 0) with true; step; by_fact Hfile.
  by_fact HT; finish.
Qed.

Lemma inner_handler_cli_success (E : Env) (w : World) (image : nat)
    (im : Image) (mp out err sout serr T : string) (fs' : gmap string node) :
  w_imgs w !! image = Some im ->
  env_decode E out = Some sout ->
  env_decode E err = Some serr ->
  utf8_valid T = true ->
  cli_ends E w "input_processed.png" im
    (cmd_pipeline E w "input_processed.png" mp) (Exited 0 out err) fs' ->
  fs' !! ws_output E w = Some (File T) ->
  App.Inner.run_ocr E image mp w =
    (Ok (Some (translate_newlines T)),
     grown w fs'
       [el_text "Attempting to run Kraken CLI...";
        el_success "OCR completed via Kraken CLI"]
       (cli_calls E w "input_processed.png"
          (cmd_pipeline E w "input_processed.png" mp)
        ++ [call_exists (ws_output E w); call_read (ws_output E w)])).
Proof.
  intros Him Hout Herr HT Hrun Hfile.
  start Him Hrun. by_fact Hout. by_fact Herr.
  change (0 =? 0) with true; step; by_fact Hfile.
  by_fact HT; finish.
Qed.

Lemma inner_handler_recognized (E : Env) (w : World) (image : nat)
    (im : Image) (mp msg : string) (fs' : gmap string node)
    (model : Model) (preds : Preds) :
  w_imgs w !! image = Some im ->
  cli_ends E w "input_processed.png" im
    (cmd_pipeline E w "input_processed.png" mp) (SpawnNotFound msg) fs' ->
  env_import E = Ok tt ->
  env_load_any_model E mp = Ok model ->
  env_recognize E model [im] = Ok preds ->
  App.Inner.run_ocr E image mp w =
    (Ok (Some (preds_text preds)),
     grown w (lib_fs E (fallback_calls mp model im) fs')
       [el_text "Attempting to run Kraken CLI...";
        el_warning cli_missing_warning_inner;
        el_text "Loading model and running Kraken Python API...";
        el_success "OCR completed via Kraken Python API"]
       (cli_calls E w "input_processed.png"
          (cmd_pipeline E w "input_processed.png" mp)
        ++ fallback_calls mp model im)).
Proof.
  intros Him Hrun Himp Hload Hrec.
  start Him Hrun. by_fact Himp; by_fact Hload.
  by_fact Him; by_fact Hrec; finish.
Qed.

(** X12. Without an upload both scripts only draw their fixed elements:
    app_streamlit.py its head and the help section, the second script of
    app.py its head; no call is made, no object created and no file
    written. *)
Theorem no_upload_is_idle (E : Env) (i : Inputs) (w : World) :
  in_upload i = None ->
  AppStreamlit.script E i w
  = (Ok tt, grown w (w_fs w) (page_head ++ sidebar_help) [])
  /\ App.Inner.script E i w = (Ok tt, grown w (w_fs w) inner_head []).
Proof.
  intros Hup. split; unfold_scripts_p; by_fact Hup; finish_world.
Qed.

Lemma no_upload_is_idle_witness :
  AppStreamlit.script (env_cli 0 None) (sample_inputs None true) (sample_world sample_gray)
  = (Ok tt,
     grown (sample_world sample_gray) ∅ (page_head ++ sidebar_help) []).
Proof.
  apply (no_upload_is_idle (env_cli 0 None) (sample_inputs None true)
           (sample_world sample_gray) eq_refl).
Defined.

(** X13. Until the OCR button is pressed app_streamlit.py only decodes
    and shows the upload: the decoded bitmap is the one new object, the
    page is the head, the image, the button and the help section, the
    only calls are the decoding ones, and no directory is created, no
    file written and no process started. *)
Theorem no_click_only_decodes (E : Env) (i : Inputs) (w : World)
    (upload : string) (im : Image) :
  in_upload i = Some upload ->
  in_run_ocr i = false ->
  (env_open_convert E upload ModeL = Ok im ->
   AppStreamlit.script E i w =
     (Ok tt,
      mkWorld (w_imgs w ++ [im]) (w_fs w)
        (w_page w ++ page_head
         ++ [el_image im (Some "Uploaded image"); el_button "Run OCR"]
         ++ sidebar_help)
        (w_calls w ++ [call_open_convert upload ModeL])))
  /\ (forall e,
        env_open_convert E upload ModeL = Raise e ->
        env_open_convert E upload ModeRGB = Ok im ->
        AppStreamlit.script E i w =
          (Ok tt,
           mkWorld (w_imgs w ++ [im]) (w_fs w)
             (w_page w ++ page_head
              ++ [el_image im (Some "Uploaded image"); el_button "Run OCR"]
              ++ sidebar_help)
             (w_calls w ++ [call_open_convert upload ModeL;
                            call_open_convert upload ModeRGB]))).
Proof.
  intros Hup Hclick. split.
  - intros HL. unfold_scripts_p; by_fact Hup; by_fact HL; newest.
    by_fact Hclick. finish_world.
  - intros e HL HRGB. unfold_scripts_p; by_fact Hup; by_fact HL; by_fact HRGB.
    newest. by_fact Hclick. finish_world.
Qed.

Lemma no_click_only_decodes_witness :
  let E := env_cli 0 None in
  let w := sample_world sample_rgb in
  AppStreamlit.script E (sample_inputs (Some "png bytes") false) w =
    (Ok tt,
     mkWorld [sample_rgb; sample_gray] ∅
       (page_head
        ++ [el_image sample_gray (Some "Uploaded image"); el_button "Run OCR"]
        ++ sidebar_help)
       [call_open_convert "png bytes" ModeL]).
Proof.
  intros E w.
  destruct (no_click_only_decodes E (sample_inputs (Some "png bytes") false) w
              "png bytes" sample_gray eq_refl eq_refl) as [H _].
  apply (H eq_refl).
Defined.

(** X15. When opening the upload raises, the second script of app.py
    reports "Failed to open image" with the text of the exception and
    stops there: no preview, no OCR button, no style sheet, and nothing
    is called or written. *)
Theorem inner_open_failure (E : Env) (i : Inputs) (w : World)
    (upload : string) (e : exn) :
  in_upload i = Some upload ->
  env_open E upload = Raise e ->
  App.Inner.script E i w =
    (Ok tt,
     grown w (w_fs w)
       (inner_head ++ [el_error ("Failed to open image: " ++ exn_str e)])
       [call_open upload]).
Proof.
  intros Hup Hopen. unfold_scripts_p; by_fact Hup; by_fact Hopen.
  finish_world.
Qed.

Lemma inner_open_failure_witness :
  let E := sample_env (Exited 0 "out" "err") None (Ok tt) (Ok sample_model)
             (Ok (PredList [])) (Ok (PredList []))
             (Raise (OtherError "UnidentifiedImageError" "cannot identify image file"))
             (Ok sample_rgb) in
  let w := sample_world sample_gray in
  App.Inner.script E (sample_inputs (Some "not an image") true) w =
    (Ok tt,
     grown w ∅
       (inner_head ++ [el_error "Failed to open image: cannot identify image file"])
       [call_open "not an image"]).
Proof.
  intros E w.
  apply (inner_open_failure E (sample_inputs (Some "not an image") true) w
           "not an image" _ eq_refl eq_refl).
Defined.

(** X16. Before the OCR button is pressed the second script of app.py
    shows the upload and, under the caption with the cutoff, the image
    thresholded at the cutoff of the slider, then the button and the
    style sheet; the upload, its gray copy and the thresholded image are
    the new objects, and no directory is created and no process
    started. *)
Theorem inner_preview_without_click (E : Env) (i : Inputs) (w : World)
    (upload : string) (orig : Image) :
  in_upload i = Some upload ->
  env_open E upload = Ok orig ->
  in_run_ocr i = false ->
  App.Inner.script E i w =
    (Ok tt,
     mkWorld
       (w_imgs w ++ [orig; convert_data ModeL orig; binarized (in_threshold i) orig])
       (w_fs w)
       (w_page w ++ inner_head ++ inner_preview orig (in_threshold i)
        ++ [el_markdown App.rtl_css])
       (w_calls w ++ [call_open upload])).
Proof.
  intros Hup Hopen Hclick.
  unfold_scripts_p; by_fact Hup; by_fact Hopen; newest.
  by_fact Hclick. finish_world.
Qed.

Lemma inner_preview_without_click_witness :
  let E := env_cli 0 None in
  let w := mkWorld [] ∅ [] [] in
  App.Inner.script E (sample_inputs (Some "png bytes") false) w =
    (Ok tt,
     mkWorld [sample_gray; sample_gray; ImL 2 2 [0; 0; 0; 255]] ∅
       (inner_head ++ inner_preview sample_gray 128 ++ [el_markdown App.rtl_css])
       [call_open "png bytes"]).
Proof.
  intros E w.
  apply (inner_preview_without_click E (sample_inputs (Some "png bytes") false) w
           "png bytes" sample_gray eq_refl eq_refl eq_refl).
Defined.

(** X17. The second script of app.py, with the button pressed and the
    child process successful: the image saved for the child process is
    the thresholded one, the model path of the command is the value of
    the text input, and the text read is shown under the style sheet in
    a text area with a download named recognized.txt of type text/plain;
    when the text is empty success is reported but neither the text area
    nor the download is drawn. What the child process wrote to its pipes
    is taken to decode. *)
Theorem inner_cli_success (E : Env) (i : Inputs) (w : World)
    (upload out err sout serr T : string) (orig : Image)
    (fs' : gmap string node) :
  in_upload i = Some upload ->
  env_open E upload = Ok orig ->
  in_run_ocr i = true ->
  env_decode E out = Some sout ->
  env_decode E err = Some serr ->
  utf8_valid T = true ->
  cli_ends E w "input_processed.png" (binarized (in_threshold i) orig)
    (cmd_pipeline E w "input_processed.png" (in_model_path i))
    (Exited 0 out err) fs' ->
  fs' !! ws_output E w = Some (File T) ->
  App.Inner.script E i w =
    (Ok tt,
     mkWorld
       (w_imgs w ++ [orig; convert_data ModeL orig; binarized (in_threshold i) orig])
       fs'
       (w_page w ++ inner_head ++ inner_preview orig (in_threshold i)
        ++ [el_text "Attempting to run Kraken CLI...";
            el_success "OCR completed via Kraken CLI";
            el_markdown App.rtl_css]
        ++ inner_result (translate_newlines T))
       (w_calls w ++ [call_open upload]
        ++ cli_calls E w "input_processed.png"
             (cmd_pipeline E w "input_processed.png" (in_model_path i))
        ++ [call_exists (ws_output E w); call_read (ws_output E w)])).
Proof.
  intros Hup Hopen Hclick Hout Herr HT Hrun Hfile.
  unfold_scripts_p; by_fact Hup; by_fact Hopen; newest. by_fact Hclick.
  erewrite (inner_handler_cli_success E _ _ (binarized (in_threshold i) orig)
              _ out err sout serr T fs');
    [|apply list_lookup_middle; reflexivity|exact Hout|exact Herr|exact HT
     |exact Hrun|exact Hfile].
  unfold_scripts_p.
  destruct (translate_newlines T); step; finish_world.
Qed.

Lemma inner_cli_success_witness :
  let E := env_cli 0 (Some "הלל") in
  let w := mkWorld [] ∅ [] [] in
  App.Inner.script E (sample_inputs (Some "png bytes") true) w =
    (Ok tt,
     mkWorld [sample_gray; sample_gray; ImL 2 2 [0; 0; 0; 255]]
       (<[ws_output E w := File "הלל"]>
          (ws_fs E w "input_processed.png" (ImL 2 2 [0; 0; 0; 255])))
       (inner_head ++ inner_preview sample_gray 128
        ++ [el_text "Attempting to run Kraken CLI...";
            el_success "OCR completed via Kraken CLI";
            el_markdown App.rtl_css;
            el_subheader "Recognized text";
            el_text_area "Recognized text" "הלל";
            el_download_button "Download Text" "הלל" "recognized.txt" "text/plain"])
       ([call_open "png bytes"]
        ++ cli_calls E w "input_processed.png"
             (cmd_pipeline E w "input_processed.png" DEFAULT_MODEL_PATH)
        ++ [call_exists (ws_output E w); call_read (ws_output E w)])).
Proof.
  intros E w.
  apply (inner_cli_success E (sample_inputs (Some "png bytes") true) w
           "png bytes" "out" "err" "out" "err" "הלל" sample_gray _
           eq_refl eq_refl eq_refl eq_refl eq_refl eq_refl
           (conj (conj eq_refl eq_refl) eq_refl)).
  apply lookup_insert_eq.
Defined.

(** X18. On the fallback path the second script of app.py passes the
    thresholded image, not the upload, to the recognizer, as a list of
    one image, with the model loaded from the path of the text input; the
    result is shown like the text of the CLI path, and an empty result is
    reported as success without a text area. *)
Theorem inner_fallback_uses_thresholded (E : Env) (i : Inputs) (w : World)
    (upload msg : string) (orig : Image) (fs' : gmap string node)
    (model : Model) (preds : Preds) :
  in_upload i = Some upload ->
  env_open E upload = Ok orig ->
  in_run_ocr i = true ->
  cli_ends E w "input_processed.png" (binarized (in_threshold i) orig)
    (cmd_pipeline E w "input_processed.png" (in_model_path i))
    (SpawnNotFound msg) fs' ->
  env_import E = Ok tt ->
  env_load_any_model E (in_model_path i) = Ok model ->
  env_recognize E model [binarized (in_threshold i) orig] = Ok preds ->
  App.Inner.script E i w =
    (Ok tt,
     mkWorld
       (w_imgs w ++ [orig; convert_data ModeL orig; binarized (in_threshold i) orig])
       (lib_fs E
          (fallback_calls (in_model_path i) model (binarized (in_threshold i) orig))
          fs')
       (w_page w ++ inner_head ++ inner_preview orig (in_threshold i)
        ++ [el_text "Attempting to run Kraken CLI...";
            el_warning cli_missing_warning_inner;
            el_text "Loading model and running Kraken Python API...";
            el_success "OCR completed via Kraken Python API";
            el_markdown App.rtl_css]
        ++ inner_result (preds_text preds))
       (w_calls w ++ [call_open upload]
        ++ cli_calls E w "input_processed.png"
             (cmd_pipeline E w "input_processed.png" (in_model_path i))
        ++ fallback_calls (in_model_path i) model (binarized (in_threshold i) orig))).
Proof.
  intros Hup Hopen Hclick Hrun Himp Hload Hrec.
  unfold_scripts_p; by_fact Hup; by_fact Hopen; newest. by_fact Hclick.
  erewrite (inner_handler_recognized E _ _ (binarized (in_threshold i) orig)
              _ msg fs' model preds);
    [|apply list_lookup_middle; reflexivity|exact Hrun|exact Himp|exact Hload
     |exact Hrec].
  unfold_scripts_p.
  destruct (preds_text preds); step; finish_world.
Qed.

Lemma inner_fallback_uses_thresholded_witness :
  let E := env_no_cli (Ok tt) (Ok (PredList [])) (Ok (PredList [])) in
  let w := mkWorld [] ∅ [] [] in
  App.Inner.script E (sample_inputs (Some "png bytes") true) w =
    (Ok tt,
     mkWorld [sample_gray; sample_gray; ImL 2 2 [0; 0; 0; 255]]
       (ws_fs E w "input_processed.png" (ImL 2 2 [0; 0; 0; 255]))
       (inner_head ++ inner_preview sample_gray 128
        ++ [el_text "Attempting to run Kraken CLI...";
            el_warning cli_missing_warning_inner;
            el_text "Loading model and running Kraken Python API...";
            el_success "OCR completed via Kraken Python API";
            el_markdown App.rtl_css])
       ([call_open "png bytes"]
        ++ cli_calls E w "input_processed.png"
             (cmd_pipeline E w "input_processed.png" DEFAULT_MODEL_PATH)
        ++ fallback_calls DEFAULT_MODEL_PATH sample_model (ImL 2 2 [0; 0; 0; 255]))).
Proof.
  intros E w.
  apply (inner_fallback_uses_thresholded E (sample_inputs (Some "png bytes") true) w
           "png bytes" _ sample_gray _ sample_model (PredList [])
           eq_refl eq_refl eq_refl (conj (conj eq_refl eq_refl) eq_refl)
           eq_refl eq_refl eq_refl).
Defined.

(** X20. app_streamlit.py, with the button pressed and the child process
    successful: the image saved for the child process is the decoded
    upload, the model path of the command is the value of the text
    input, and the page is the head, the image, the button, the progress
    line, the success, the text area with the text read and the help
    section. *)
Theorem streamlit_cli_success (E : Env) (i : Inputs) (w : World)
    (upload out err sout serr T : string) (im : Image)
    (fs' : gmap string node) :
  in_upload i = Some upload ->
  env_open_convert E upload ModeL = Ok im ->
  in_run_ocr i = true ->
  env_decode E out = Some sout ->
  env_decode E err = Some serr ->
  utf8_valid T = true ->
  cli_ends E w "input.png" im (cmd_ocr E w (in_model_path i))
    (Exited 0 out err) fs' ->
  fs' !! ws_output E w = Some (File T) ->
  AppStreamlit.script E i w =
    (Ok tt,
     mkWorld (w_imgs w ++ [im]) fs'
       (w_page w ++ page_head
        ++ [el_image im (Some "Uploaded image"); el_button "Run OCR";
            el_text "Attempting to run Kraken CLI...";
            el_success "OCR completed via Kraken CLI";
            el_text_area "Recognized text" (translate_newlines T)]
        ++ sidebar_help)
       (w_calls w ++ [call_open_convert upload ModeL]
        ++ cli_calls E w "input.png" (cmd_ocr E w (in_model_path i))
        ++ [call_exists (ws_output E w); call_read (ws_output E w)])).
Proof.
  intros Hup HL Hclick Hout Herr HT Hrun Hfile.
  unfold_scripts_p; by_fact Hup; by_fact HL; newest. by_fact Hclick.
  erewrite (streamlit_handler_cli_success E _ _ im _ out err sout serr T fs');
    [|apply list_lookup_middle; reflexivity|exact Hout|exact Herr|exact HT
     |exact Hrun|exact Hfile].
  unfold_scripts_p. finish_world.
Qed.

Lemma streamlit_cli_success_witness :
  let E := env_cli 0 (Some "הלל") in
  let w := mkWorld [] ∅ [] [] in
  AppStreamlit.script E (sample_inputs (Some "png bytes") true) w =
    (Ok tt,
     mkWorld [sample_gray]
       (<[ws_output E w := File "הלל"]> (ws_fs E w "input.png" sample_gray))
       (page_head
        ++ [el_image sample_gray (Some "Uploaded image"); el_button "Run OCR";
            el_text "Attempting to run Kraken CLI...";
            el_success "OCR completed via Kraken CLI";
            el_text_area "Recognized text" "הלל"]
        ++ sidebar_help)
       ([call_open_convert "png bytes" ModeL]
        ++ cli_calls E w "input.png" (cmd_ocr E w DEFAULT_MODEL_PATH)
        ++ [call_exists (ws_output E w); call_read (ws_output E w)])).
Proof.
  intros E w.
  apply (streamlit_cli_success E (sample_inputs (Some "png bytes") true) w
           "png bytes" "out" "err" "out" "err" "הלל" sample_gray _
           eq_refl eq_refl eq_refl eq_refl eq_refl eq_refl
           (conj (conj eq_refl eq_refl) eq_refl)).
  apply lookup_insert_eq.
Defined.
